(** * AI-IP-Camera operator dashboard: the REST client and the App component

    A shallow embedding of [src/api.ts] (module [Api]) and of the state,
    effects and handlers of the [App] component of [src/App.tsx]
    (module [App]), followed by the properties of the job lifecycle, the
    pollers and the stream monitor.

    The component is a transition system.  Its state is the record of its
    [useState] values together with what the browser holds for it: the
    armed intervals and the continuations waiting for a promise or a
    one-shot timer.  An input (a click, a timer, the settlement of a
    request) runs one handler, or the part of an [async] handler between
    two [await]s, on the state of the last render (every handler is rebuilt
    when a value it reads changes); the setter calls of that part are applied
    in order; then the render runs the effects whose dependency changed.
    The API calls, alerts and one-shot timers asked for on the way are
    collected.

    Not modelled: theme, clock, the board list, the JSX tree beyond the
    [disabled] attributes and the conditions under which controls and the
    stream image are mounted, and what the component writes to the
    console. *)

From Stdlib Require Import Bool ZArith List String DecimalString Lia.
From Stdlib Require Import Floats.PrimFloat.
Import ListNotations.
Local Open Scope string_scope.
Local Open Scope Z_scope.

(** ** JavaScript values used by both files *)

(** A JS [number]; the payload fields are doubles and are never computed on. *)
Definition number : Set := float.

(** Truthiness of a JS string: only the empty string is falsy. *)
Definition truthy (s : string) : bool := negb (String.eqb s EmptyString).

(** Truthiness of a [string | null]: [null] and the empty string are falsy. *)
Definition truthy_opt (o : option string) : bool :=
  match o with
  | Some s => truthy s
  | None => false
  end.

(** [a || b] on strings where [a] may be missing. *)
Definition or_else (a : option string) (b : string) : string :=
  match a with
  | Some s => if truthy s then s else b
  | None => b
  end.

(** ** src/api.ts *)
Module Api.

Definition BACKEND : string := "http://192.168.1.56:8000".

(** The interfaces.  A field name shared by several interfaces ([id],
    [name], [path], [timestamp]) carries the name of its interface; [id]
    is [board_id_], [camera_id_], [model_id_], as [Event] has fields
    [board_id] and [camera_id] of its own. *)
Record Board := {
  board_id_ : string; board_name : string; board_ip : string;
  base_path : option string }.

Record CameraItem := {
  camera_id_ : string; camera_name : string; camera_path : string }.

Record ModelItem := {
  model_id_ : string; model_name : string; model_path : option string;
  script : option string; model_file : option string }.

Record Event := {
  event_id : string; event_type : string; timestamp : string;
  plate_number : option string; speed : option number;
  confidence : option number; camera_id : option string;
  board_id : option string; image_base64 : option string;
  image_path : option string; created_at : option string }.

Record ProfilingData := {
  job_id : string; fps : number; resolution : string;
  frame_count : number; inference_ms : number; model : string;
  camera : string; board : string; frame_delay_ms : number;
  p_timestamp : string; streaming : bool }.

(** The object passed to [JSON.stringify]: its keys and string values. *)
Definition JsonBody := list (string * string).

(** The two arguments of [fetch]. *)
Record HttpRequest := {
  url : string;
  method : string;
  headers : list (string * string);
  body : option JsonBody }.

Definition GET (u : string) : HttpRequest :=
  {| url := u; method := "GET"; headers := []; body := None |}.

Definition POST_json (u : string) (b : JsonBody) : HttpRequest :=
  {| url := u; method := "POST";
     headers := [("Content-Type", "application/json")]; body := Some b |}.

(** What the client reads of a [Response]: [ok], [statusText] and the
    parsed body.  [json] is [None] when [r.json()] rejects, and
    [json_error] is then the message of the error it rejects with: the
    parser's message for the body received.  Of an error body only the
    [message] field is read: [null_error] is [Some e] when the body parses
    to [null], [e] being the message of the [TypeError] that reading
    [errorBody.message] raises; otherwise [message] is the field as the
    template literal prints it, [None] when the field is missing or is a
    falsy value other than a string. *)
Record Response (A : Type) := {
  ok : bool;
  statusText : string;
  json : option A;
  json_error : string;
  null_error : option string;
  message : option string }.
Arguments ok {A}. Arguments statusText {A}.
Arguments json {A}. Arguments json_error {A}.
Arguments null_error {A}. Arguments message {A}.

(** [fetch] either rejects (network failure) or resolves to a response. *)
Inductive Fetched (A : Type) :=
| NetworkError (msg : string)
| Responded (r : Response A).
Arguments NetworkError {A}. Arguments Responded {A}.

(** How an [async] API function settles: the value returned, or the
    [message] of the thrown error. *)
Inductive Settled (A : Type) :=
| Returned (a : A)
| Threw (msg : string).
Arguments Returned {A}. Arguments Threw {A}.

(** One execution of an API function: console lines, requests issued, and
    how the promise settles. *)
Record Run (A : Type) := {
  console : list string;
  issued : list HttpRequest;
  settled : Settled A }.
Arguments console {A}. Arguments issued {A}. Arguments settled {A}.

(** [return r.json()]. *)
Definition return_json {A} (r : Response A) : Settled A :=
  match json r with
  | Some a => Returned a
  | None => Threw (json_error r)
  end.

(** [if (!r.ok) { const errorBody = await r.json();
       throw new Error(`<prefix>${errorBody.message || r.statusText}`); }
     return r.json();] *)
Definition check_with_message {A} (prefix : string) (r : Response A)
  : Settled A :=
  if negb (ok r) then
    match json r with
    | Some _ =>
        match null_error r with
        | Some e => Threw e
        | None => Threw (prefix ++ or_else (message r) (statusText r))
        end
    | None => Threw (json_error r)
    end
  else return_json r.

(** [if (!r.ok) throw new Error(<msg>); return r.json();] *)
Definition check_plain {A} (msg : string) (r : Response A) : Settled A :=
  if negb (ok r) then Threw msg else return_json r.

Definition after_fetch {A} (f : Fetched A) (k : Response A -> Settled A)
  : Settled A :=
  match f with
  | NetworkError m => Threw m
  | Responded r => k r
  end.

Definition startJob_request (boardId cameraId modelId : string)
  : HttpRequest :=
  POST_json (BACKEND ++ "/jobs/start")
    [("board_id", boardId); ("camera", cameraId); ("model", modelId)].

Definition stopJob_request : HttpRequest :=
  {| url := BACKEND ++ "/jobs/stop"; method := "POST";
     headers := []; body := None |}.

(** [stopJob(jobId)], run against a backend [fetch]. *)
Definition stopJob {A} (jobId : string)
    (fetch : HttpRequest -> Fetched A) : Run A :=
  {| console := ["[API] Stopping job: " ++ jobId];
     issued := [stopJob_request];
     settled := after_fetch (fetch stopJob_request)
                  (check_with_message "Failed to stop job: ") |}.


Definition getBoards_request : HttpRequest := GET (BACKEND ++ "/boards").

Definition getCameras_request (boardId : string) : HttpRequest :=
  GET (BACKEND ++ "/cameras?board_id=" ++ boardId).

Definition getModels_request (boardId : string) : HttpRequest :=
  GET (BACKEND ++ "/models?board_id=" ++ boardId).

Definition pauseVideo_request (boardId : string) : HttpRequest :=
  POST_json (BACKEND ++ "/pause_video") [("board_id", boardId)].

Definition resumeVideo_request (boardId : string) : HttpRequest :=
  POST_json (BACKEND ++ "/resume_video") [("board_id", boardId)].

(** [`${limit}`] for a [limit] that is an integer of magnitude below
    [1e21]; JavaScript prints other numbers with a fraction or an
    exponent, which this definition does not cover. *)
Definition decimal (n : Z) : string := NilZero.string_of_int (Z.to_int n).

Definition getRecentEvents_request (limit : Z) : HttpRequest :=
  GET (BACKEND ++ "/events/recent?limit=" ++ decimal limit).

Definition getProfiling_request (jobId : string) : HttpRequest :=
  GET (BACKEND ++ "/profiling/" ++ jobId).

Definition savedFrames_request : HttpRequest :=
  GET (BACKEND ++ "/saved_frames").

Definition getEventById_request (eventId : string) : HttpRequest :=
  GET (BACKEND ++ "/events/" ++ eventId).

Definition getHealth_request : HttpRequest := GET (BACKEND ++ "/health").

(** *** The promises of the API functions

    How the promise of each function settles, given how [fetch] answers the
    request the function sends ([A] is what the body parses to).  The
    console line of [startJob] is not part of it. *)

Definition getBoards {A} (fetch : HttpRequest -> Fetched A) : Settled A :=
  after_fetch (fetch getBoards_request)
    (check_plain "Failed to fetch boards").

Definition getCameras {A} (boardId : string)
    (fetch : HttpRequest -> Fetched A) : Settled A :=
  after_fetch (fetch (getCameras_request boardId))
    (check_plain "Failed to fetch cameras").

Definition getModels {A} (boardId : string)
    (fetch : HttpRequest -> Fetched A) : Settled A :=
  after_fetch (fetch (getModels_request boardId))
    (check_plain "Failed to fetch models").

Definition startJob {A} (boardId cameraId modelId : string)
    (fetch : HttpRequest -> Fetched A) : Settled A :=
  after_fetch (fetch (startJob_request boardId cameraId modelId))
    (check_with_message "Failed to start job: ").

Definition pauseVideo {A} (boardId : string)
    (fetch : HttpRequest -> Fetched A) : Settled A :=
  after_fetch (fetch (pauseVideo_request boardId))
    (check_with_message "Failed to pause video: ").

Definition resumeVideo {A} (boardId : string)
    (fetch : HttpRequest -> Fetched A) : Settled A :=
  after_fetch (fetch (resumeVideo_request boardId))
    (check_with_message "Failed to resume video: ").

(** [limit] is [None] when the argument is left out ([limit = 20]). *)
Definition getRecentEvents {A} (limit : option Z)
    (fetch : HttpRequest -> Fetched A) : Settled A :=
  after_fetch
    (fetch (getRecentEvents_request
              match limit with Some n => n | None => 20 end))
    (check_plain "Failed to fetch events").

Definition getEventById {A} (eventId : string)
    (fetch : HttpRequest -> Fetched A) : Settled A :=
  after_fetch (fetch (getEventById_request eventId))
    (check_plain "Failed to fetch event").

Definition getProfiling {A} (jobId : string)
    (fetch : HttpRequest -> Fetched A) : Settled A :=
  after_fetch (fetch (getProfiling_request jobId))
    (check_plain "Failed to fetch profiling data").

Definition getHealth {A} (fetch : HttpRequest -> Fetched A) : Settled A :=
  after_fetch (fetch getHealth_request) (check_plain "Health check failed").

(** The exported functions with their arguments. *)
Inductive Function :=
| F_getBoards
| F_getCameras (boardId : string)
| F_getModels (boardId : string)
| F_startJob (boardId cameraId modelId : string)
| F_stopJob (jobId : string)
| F_pauseVideo (boardId : string)
| F_resumeVideo (boardId : string)
| F_getRecentEvents (limit : option Z)
| F_getEventById (eventId : string)
| F_getProfiling (jobId : string)
| F_getHealth.

(** The request a function sends. *)
Definition request (f : Function) : HttpRequest :=
  match f with
  | F_getBoards => getBoards_request
  | F_getCameras b => getCameras_request b
  | F_getModels b => getModels_request b
  | F_startJob b c m => startJob_request b c m
  | F_stopJob _ => stopJob_request
  | F_pauseVideo b => pauseVideo_request b
  | F_resumeVideo b => resumeVideo_request b
  | F_getRecentEvents l =>
      getRecentEvents_request match l with Some n => n | None => 20 end
  | F_getEventById e => getEventById_request e
  | F_getProfiling j => getProfiling_request j
  | F_getHealth => getHealth_request
  end.

(** The promise a function returns. *)
Definition invoke {A} (f : Function) (fetch : HttpRequest -> Fetched A)
  : Settled A :=
  match f with
  | F_getBoards => getBoards fetch
  | F_getCameras b => getCameras b fetch
  | F_getModels b => getModels b fetch
  | F_startJob b c m => startJob b c m fetch
  | F_stopJob j => settled (stopJob j fetch)
  | F_pauseVideo b => pauseVideo b fetch
  | F_resumeVideo b => resumeVideo b fetch
  | F_getRecentEvents l => getRecentEvents l fetch
  | F_getEventById e => getEventById e fetch
  | F_getProfiling j => getProfiling j fetch
  | F_getHealth => getHealth fetch
  end.

(** The job and video controls: the functions that read the error body. *)
Definition is_control_function (f : Function) : bool :=
  match f with
  | F_startJob _ _ _ | F_stopJob _ | F_pauseVideo _ | F_resumeVideo _ => true
  | _ => false
  end.

(** The text of the error a function throws on a response that is not
    [ok]: the whole message for a read, the prefix of the message for a
    control. *)
Definition failure_text (f : Function) : string :=
  match f with
  | F_getBoards => "Failed to fetch boards"
  | F_getCameras _ => "Failed to fetch cameras"
  | F_getModels _ => "Failed to fetch models"
  | F_startJob _ _ _ => "Failed to start job: "
  | F_stopJob _ => "Failed to stop job: "
  | F_pauseVideo _ => "Failed to pause video: "
  | F_resumeVideo _ => "Failed to resume video: "
  | F_getRecentEvents _ => "Failed to fetch events"
  | F_getEventById _ => "Failed to fetch event"
  | F_getProfiling _ => "Failed to fetch profiling data"
  | F_getHealth => "Health check failed"
  end.

(** [s] starts with [p]. *)
Definition starts_with (p s : string) : bool := String.prefix p s.


End Api.

(** ** src/App.tsx *)
Module App.

(** An element of the [savedFrames] array ([any[]]): the fields the
    component reads. *)
Record SavedFrame := {
  frame_id : string; frame_timestamp : string; detections : number;
  model_id : string; frame_image_base64 : string }.

(** What [onStart] reads of the value [startJob] resolves to. *)
Record StartResult := { job_id : string; stream_url : string }.

(** How an awaited promise settles for the component: the value, or the
    [message] of the error caught. *)
Inductive Outcome (A : Type) :=
| Resolved (a : A)
| Rejected (msg : string).
Arguments Resolved {A}. Arguments Rejected {A}.

(** *** Component state: one field per [useState] *)
Record State := {
  cameras : list Api.CameraItem;
  models : list Api.ModelItem;
  selectedBoardId : string;
  selectedCameraId : string;
  selectedModelId : string;
  jobId : option string;
  streamUrl : string;
  busy : bool;
  isPaused : bool;
  imageLoaded : bool;
  streamError : option string;
  countdown : Z;
  loadingModels : bool;
  events : list Api.Event;
  selectedEvent : option Api.Event;
  savedFrames : list SavedFrame;
  profiling : option Api.ProfilingData;
  isVideoMinimized : bool;
  isVideoFullscreen : bool }.

(** The state setters returned by [useState]. *)
Definition setCameras (v : list Api.CameraItem) (s : State) : State :=
  {| cameras := v; models := models s; selectedBoardId := selectedBoardId s;
     selectedCameraId := selectedCameraId s;
     selectedModelId := selectedModelId s; jobId := jobId s;
     streamUrl := streamUrl s; busy := busy s; isPaused := isPaused s;
     imageLoaded := imageLoaded s; streamError := streamError s;
     countdown := countdown s; loadingModels := loadingModels s;
     events := events s; selectedEvent := selectedEvent s;
     savedFrames := savedFrames s; profiling := profiling s;
     isVideoMinimized := isVideoMinimized s;
     isVideoFullscreen := isVideoFullscreen s |}.

Definition setModels (v : list Api.ModelItem) (s : State) : State :=
  {| cameras := cameras s; models := v; selectedBoardId := selectedBoardId s;
     selectedCameraId := selectedCameraId s;
     selectedModelId := selectedModelId s; jobId := jobId s;
     streamUrl := streamUrl s; busy := busy s; isPaused := isPaused s;
     imageLoaded := imageLoaded s; streamError := streamError s;
     countdown := countdown s; loadingModels := loadingModels s;
     events := events s; selectedEvent := selectedEvent s;
     savedFrames := savedFrames s; profiling := profiling s;
     isVideoMinimized := isVideoMinimized s;
     isVideoFullscreen := isVideoFullscreen s |}.

Definition setSelectedBoardId (v : string) (s : State) : State :=
  {| cameras := cameras s; models := models s; selectedBoardId := v;
     selectedCameraId := selectedCameraId s;
     selectedModelId := selectedModelId s; jobId := jobId s;
     streamUrl := streamUrl s; busy := busy s; isPaused := isPaused s;
     imageLoaded := imageLoaded s; streamError := streamError s;
     countdown := countdown s; loadingModels := loadingModels s;
     events := events s; selectedEvent := selectedEvent s;
     savedFrames := savedFrames s; profiling := profiling s;
     isVideoMinimized := isVideoMinimized s;
     isVideoFullscreen := isVideoFullscreen s |}.

Definition setSelectedCameraId (v : string) (s : State) : State :=
  {| cameras := cameras s; models := models s;
     selectedBoardId := selectedBoardId s; selectedCameraId := v;
     selectedModelId := selectedModelId s; jobId := jobId s;
     streamUrl := streamUrl s; busy := busy s; isPaused := isPaused s;
     imageLoaded := imageLoaded s; streamError := streamError s;
     countdown := countdown s; loadingModels := loadingModels s;
     events := events s; selectedEvent := selectedEvent s;
     savedFrames := savedFrames s; profiling := profiling s;
     isVideoMinimized := isVideoMinimized s;
     isVideoFullscreen := isVideoFullscreen s |}.

Definition setSelectedModelId (v : string) (s : State) : State :=
  {| cameras := cameras s; models := models s;
     selectedBoardId := selectedBoardId s;
     selectedCameraId := selectedCameraId s; selectedModelId := v;
     jobId := jobId s; streamUrl := streamUrl s; busy := busy s;
     isPaused := isPaused s; imageLoaded := imageLoaded s;
     streamError := streamError s; countdown := countdown s;
     loadingModels := loadingModels s; events := events s;
     selectedEvent := selectedEvent s; savedFrames := savedFrames s;
     profiling := profiling s; isVideoMinimized := isVideoMinimized s;
     isVideoFullscreen := isVideoFullscreen s |}.

Definition setJobId (v : option string) (s : State) : State :=
  {| cameras := cameras s; models := models s;
     selectedBoardId := selectedBoardId s;
     selectedCameraId := selectedCameraId s;
     selectedModelId := selectedModelId s; jobId := v;
     streamUrl := streamUrl s; busy := busy s; isPaused := isPaused s;
     imageLoaded := imageLoaded s; streamError := streamError s;
     countdown := countdown s; loadingModels := loadingModels s;
     events := events s; selectedEvent := selectedEvent s;
     savedFrames := savedFrames s; profiling := profiling s;
     isVideoMinimized := isVideoMinimized s;
     isVideoFullscreen := isVideoFullscreen s |}.

Definition setStreamUrl (v : string) (s : State) : State :=
  {| cameras := cameras s; models := models s;
     selectedBoardId := selectedBoardId s;
     selectedCameraId := selectedCameraId s;
     selectedModelId := selectedModelId s; jobId := jobId s; streamUrl := v;
     busy := busy s; isPaused := isPaused s; imageLoaded := imageLoaded s;
     streamError := streamError s; countdown := countdown s;
     loadingModels := loadingModels s; events := events s;
     selectedEvent := selectedEvent s; savedFrames := savedFrames s;
     profiling := profiling s; isVideoMinimized := isVideoMinimized s;
     isVideoFullscreen := isVideoFullscreen s |}.

Definition setBusy (v : bool) (s : State) : State :=
  {| cameras := cameras s; models := models s;
     selectedBoardId := selectedBoardId s;
     selectedCameraId := selectedCameraId s;
     selectedModelId := selectedModelId s; jobId := jobId s;
     streamUrl := streamUrl s; busy := v; isPaused := isPaused s;
     imageLoaded := imageLoaded s; streamError := streamError s;
     countdown := countdown s; loadingModels := loadingModels s;
     events := events s; selectedEvent := selectedEvent s;
     savedFrames := savedFrames s; profiling := profiling s;
     isVideoMinimized := isVideoMinimized s;
     isVideoFullscreen := isVideoFullscreen s |}.

Definition setIsPaused (v : bool) (s : State) : State :=
  {| cameras := cameras s; models := models s;
     selectedBoardId := selectedBoardId s;
     selectedCameraId := selectedCameraId s;
     selectedModelId := selectedModelId s; jobId := jobId s;
     streamUrl := streamUrl s; busy := busy s; isPaused := v;
     imageLoaded := imageLoaded s; streamError := streamError s;
     countdown := countdown s; loadingModels := loadingModels s;
     events := events s; selectedEvent := selectedEvent s;
     savedFrames := savedFrames s; profiling := profiling s;
     isVideoMinimized := isVideoMinimized s;
     isVideoFullscreen := isVideoFullscreen s |}.

Definition setImageLoaded (v : bool) (s : State) : State :=
  {| cameras := cameras s; models := models s;
     selectedBoardId := selectedBoardId s;
     selectedCameraId := selectedCameraId s;
     selectedModelId := selectedModelId s; jobId := jobId s;
     streamUrl := streamUrl s; busy := busy s; isPaused := isPaused s;
     imageLoaded := v; streamError := streamError s;
     countdown := countdown s; loadingModels := loadingModels s;
     events := events s; selectedEvent := selectedEvent s;
     savedFrames := savedFrames s; profiling := profiling s;
     isVideoMinimized := isVideoMinimized s;
     isVideoFullscreen := isVideoFullscreen s |}.

Definition setStreamError (v : option string) (s : State) : State :=
  {| cameras := cameras s; models := models s;
     selectedBoardId := selectedBoardId s;
     selectedCameraId := selectedCameraId s;
     selectedModelId := selectedModelId s; jobId := jobId s;
     streamUrl := streamUrl s; busy := busy s; isPaused := isPaused s;
     imageLoaded := imageLoaded s; streamError := v;
     countdown := countdown s; loadingModels := loadingModels s;
     events := events s; selectedEvent := selectedEvent s;
     savedFrames := savedFrames s; profiling := profiling s;
     isVideoMinimized := isVideoMinimized s;
     isVideoFullscreen := isVideoFullscreen s |}.

Definition setCountdown (v : Z) (s : State) : State :=
  {| cameras := cameras s; models := models s;
     selectedBoardId := selectedBoardId s;
     selectedCameraId := selectedCameraId s;
     selectedModelId := selectedModelId s; jobId := jobId s;
     streamUrl := streamUrl s; busy := busy s; isPaused := isPaused s;
     imageLoaded := imageLoaded s; streamError := streamError s;
     countdown := v; loadingModels := loadingModels s; events := events s;
     selectedEvent := selectedEvent s; savedFrames := savedFrames s;
     profiling := profiling s; isVideoMinimized := isVideoMinimized s;
     isVideoFullscreen := isVideoFullscreen s |}.

Definition setLoadingModels (v : bool) (s : State) : State :=
  {| cameras := cameras s; models := models s;
     selectedBoardId := selectedBoardId s;
     selectedCameraId := selectedCameraId s;
     selectedModelId := selectedModelId s; jobId := jobId s;
     streamUrl := streamUrl s; busy := busy s; isPaused := isPaused s;
     imageLoaded := imageLoaded s; streamError := streamError s;
     countdown := countdown s; loadingModels := v; events := events s;
     selectedEvent := selectedEvent s; savedFrames := savedFrames s;
     profiling := profiling s; isVideoMinimized := isVideoMinimized s;
     isVideoFullscreen := isVideoFullscreen s |}.

Definition setEvents (v : list Api.Event) (s : State) : State :=
  {| cameras := cameras s; models := models s;
     selectedBoardId := selectedBoardId s;
     selectedCameraId := selectedCameraId s;
     selectedModelId := selectedModelId s; jobId := jobId s;
     streamUrl := streamUrl s; busy := busy s; isPaused := isPaused s;
     imageLoaded := imageLoaded s; streamError := streamError s;
     countdown := countdown s; loadingModels := loadingModels s; events := v;
     selectedEvent := selectedEvent s; savedFrames := savedFrames s;
     profiling := profiling s; isVideoMinimized := isVideoMinimized s;
     isVideoFullscreen := isVideoFullscreen s |}.

Definition setSelectedEvent (v : option Api.Event) (s : State) : State :=
  {| cameras := cameras s; models := models s;
     selectedBoardId := selectedBoardId s;
     selectedCameraId := selectedCameraId s;
     selectedModelId := selectedModelId s; jobId := jobId s;
     streamUrl := streamUrl s; busy := busy s; isPaused := isPaused s;
     imageLoaded := imageLoaded s; streamError := streamError s;
     countdown := countdown s; loadingModels := loadingModels s;
     events := events s; selectedEvent := v; savedFrames := savedFrames s;
     profiling := profiling s; isVideoMinimized := isVideoMinimized s;
     isVideoFullscreen := isVideoFullscreen s |}.

Definition setSavedFrames (v : list SavedFrame) (s : State) : State :=
  {| cameras := cameras s; models := models s;
     selectedBoardId := selectedBoardId s;
     selectedCameraId := selectedCameraId s;
     selectedModelId := selectedModelId s; jobId := jobId s;
     streamUrl := streamUrl s; busy := busy s; isPaused := isPaused s;
     imageLoaded := imageLoaded s; streamError := streamError s;
     countdown := countdown s; loadingModels := loadingModels s;
     events := events s; selectedEvent := selectedEvent s; savedFrames := v;
     profiling := profiling s; isVideoMinimized := isVideoMinimized s;
     isVideoFullscreen := isVideoFullscreen s |}.

Definition setProfiling (v : option Api.ProfilingData) (s : State) : State :=
  {| cameras := cameras s; models := models s;
     selectedBoardId := selectedBoardId s;
     selectedCameraId := selectedCameraId s;
     selectedModelId := selectedModelId s; jobId := jobId s;
     streamUrl := streamUrl s; busy := busy s; isPaused := isPaused s;
     imageLoaded := imageLoaded s; streamError := streamError s;
     countdown := countdown s; loadingModels := loadingModels s;
     events := events s; selectedEvent := selectedEvent s;
     savedFrames := savedFrames s; profiling := v;
     isVideoMinimized := isVideoMinimized s;
     isVideoFullscreen := isVideoFullscreen s |}.

Definition setIsVideoMinimized (v : bool) (s : State) : State :=
  {| cameras := cameras s; models := models s;
     selectedBoardId := selectedBoardId s;
     selectedCameraId := selectedCameraId s;
     selectedModelId := selectedModelId s; jobId := jobId s;
     streamUrl := streamUrl s; busy := busy s; isPaused := isPaused s;
     imageLoaded := imageLoaded s; streamError := streamError s;
     countdown := countdown s; loadingModels := loadingModels s;
     events := events s; selectedEvent := selectedEvent s;
     savedFrames := savedFrames s; profiling := profiling s;
     isVideoMinimized := v; isVideoFullscreen := isVideoFullscreen s |}.

Definition setIsVideoFullscreen (v : bool) (s : State) : State :=
  {| cameras := cameras s; models := models s;
     selectedBoardId := selectedBoardId s;
     selectedCameraId := selectedCameraId s;
     selectedModelId := selectedModelId s; jobId := jobId s;
     streamUrl := streamUrl s; busy := busy s; isPaused := isPaused s;
     imageLoaded := imageLoaded s; streamError := streamError s;
     countdown := countdown s; loadingModels := loadingModels s;
     events := events s; selectedEvent := selectedEvent s;
     savedFrames := savedFrames s; profiling := profiling s;
     isVideoMinimized := isVideoMinimized s; isVideoFullscreen := v |}.

(** *** What the browser holds for the component *)

(** A continuation of the component waiting for a promise or for a one-shot
    timer, with what its closure captured. *)
Inductive Pending :=
| PSettleDelay (boardId cameraId modelId : string)
    (* onStart inside [await new Promise((r) => setTimeout(r, 3000))] *)
| PWarmup (stream_url : string)
    (* [setTimeout(() => setStreamUrl(res.stream_url), 8000)] *)
| PStart        (* onStart inside [await startJob(...)] *)
| PStop         (* onStop inside [await stopJob(jobId)] *)
| PPause        (* onPause inside [await pauseVideo(...)] *)
| PResume       (* onPause inside [await resumeVideo(...)] *)
| PCatalog      (* [await Promise.all([getCameras(..), getModels(..)])] *)
| PEvents       (* loadEvents inside [await getRecentEvents(20)] *)
| PProfiling    (* loadProfiling inside [await getProfiling(jobId)] *)
| PSavedFrames. (* loadSavedFrames inside [await fetch(...)] *)

(** The component state together with its timers: [xInterval] says that the
    interval whose handle [xIntervalRef.current] holds is armed (every
    handle is stored in its ref as it is created, and cleared only through
    it); [countdownInterval] is the interval [t] of the countdown effect;
    [suspended] lists the waiting continuations, oldest first. *)
Record World := {
  ui : State;
  eventsInterval : bool;
  profilingInterval : bool;
  savedFramesInterval : bool;
  countdownInterval : bool;
  suspended : list Pending }.

Definition with_ui (v : State) (s : World) : World :=
  {| ui := v; eventsInterval := eventsInterval s;
     profilingInterval := profilingInterval s;
     savedFramesInterval := savedFramesInterval s;
     countdownInterval := countdownInterval s; suspended := suspended s |}.

Definition with_eventsInterval (v : bool) (s : World) : World :=
  {| ui := ui s; eventsInterval := v;
     profilingInterval := profilingInterval s;
     savedFramesInterval := savedFramesInterval s;
     countdownInterval := countdownInterval s; suspended := suspended s |}.

Definition with_profilingInterval (v : bool) (s : World) : World :=
  {| ui := ui s; eventsInterval := eventsInterval s; profilingInterval := v;
     savedFramesInterval := savedFramesInterval s;
     countdownInterval := countdownInterval s; suspended := suspended s |}.

Definition with_savedFramesInterval (v : bool) (s : World) : World :=
  {| ui := ui s; eventsInterval := eventsInterval s;
     profilingInterval := profilingInterval s; savedFramesInterval := v;
     countdownInterval := countdownInterval s; suspended := suspended s |}.

Definition with_countdownInterval (v : bool) (s : World) : World :=
  {| ui := ui s; eventsInterval := eventsInterval s;
     profilingInterval := profilingInterval s;
     savedFramesInterval := savedFramesInterval s; countdownInterval := v;
     suspended := suspended s |}.

Definition with_suspended (v : list Pending) (s : World) : World :=
  {| ui := ui s; eventsInterval := eventsInterval s;
     profilingInterval := profilingInterval s;
     savedFramesInterval := savedFramesInterval s;
     countdownInterval := countdownInterval s; suspended := v |}.

Definition upd (f : State -> State) (w : World) : World :=
  with_ui (f (ui w)) w.

Definition suspend (p : Pending) (w : World) : World :=
  with_suspended (suspended w ++ [p])%list w.

(** The oldest waiting continuation that satisfies [f], and the others. *)
Fixpoint take (f : Pending -> bool) (l : list Pending)
  : option (Pending * list Pending) :=
  match l with
  | [] => None
  | p :: l' =>
      if f p then Some (p, l')
      else match take f l' with
           | Some (q, r) => Some (q, p :: r)
           | None => None
           end
  end.

Definition Pending_eqb (p q : Pending) : bool :=
  match p, q with
  | PSettleDelay b c m, PSettleDelay b' c' m' =>
      String.eqb b b' && String.eqb c c' && String.eqb m m'
  | PWarmup u, PWarmup u' => String.eqb u u'
  | PStart, PStart | PStop, PStop | PPause, PPause | PResume, PResume
  | PCatalog, PCatalog | PEvents, PEvents | PProfiling, PProfiling
  | PSavedFrames, PSavedFrames => true
  | _, _ => false
  end.

Definition is_settle_delay (p : Pending) : bool :=
  match p with PSettleDelay _ _ _ => true | _ => false end.

Definition is_warmup (p : Pending) : bool :=
  match p with PWarmup _ => true | _ => false end.

(** *** What the component asks of its environment *)

(** A call of a function of [api.ts] (or of [fetch] for the saved frames). *)
Inductive ApiCall :=
| getCameras (boardId : string)
| getModels (boardId : string)
| startJob (boardId cameraId modelId : string)
| stopJob (jobId : string)
| pauseVideo (boardId : string)
| resumeVideo (boardId : string)
| getRecentEvents (limit : Z)
| getProfiling (jobId : string)
| fetchSavedFrames.

(** The request each call sends, by [api.ts]. *)
Definition request_of (c : ApiCall) : Api.HttpRequest :=
  match c with
  | getCameras b => Api.getCameras_request b
  | getModels b => Api.getModels_request b
  | startJob b c m => Api.startJob_request b c m
  | stopJob _ => Api.stopJob_request
  | pauseVideo b => Api.pauseVideo_request b
  | resumeVideo b => Api.resumeVideo_request b
  | getRecentEvents n => Api.getRecentEvents_request n
  | getProfiling j => Api.getProfiling_request j
  | fetchSavedFrames => Api.savedFrames_request
  end.

Inductive Action :=
| Call (c : ApiCall)
| Alert (msg : string)
| SetTimeout (ms : Z).

(** The calls the three pollers make. *)
Definition is_poller_call (a : Action) : bool :=
  match a with
  | Call (getRecentEvents _) | Call (getProfiling _)
  | Call fetchSavedFrames => true
  | _ => false
  end.

Definition is_start_call (a : Action) : bool :=
  match a with Call (startJob _ _ _) => true | _ => false end.

Definition is_settle_wait (a : Action) : bool :=
  match a with SetTimeout 3000 => true | _ => false end.

Notation "x |> f" := (f x) (at level 45, left associativity, only parsing).

(** *** UI helpers *)

Definition canStart (s : State) : bool :=
  truthy (selectedBoardId s) && truthy (selectedCameraId s)
  && truthy (selectedModelId s) && negb (busy s)
  && negb (truthy_opt (jobId s)).

Definition canStop (s : State) : bool :=
  truthy_opt (jobId s) && negb (busy s).

Definition canPause (s : State) : bool :=
  truthy_opt (jobId s) && negb (busy s).

(** The [disabled] attributes of the three selectors. *)
Definition boardSelectDisabled (s : State) : bool :=
  truthy_opt (jobId s) || busy s.

Definition modelSelectDisabled (s : State) : bool :=
  truthy_opt (jobId s) || busy s || negb (truthy (selectedBoardId s))
  || loadingModels s.

Definition cameraSelectDisabled (s : State) : bool :=
  truthy_opt (jobId s) || busy s || negb (truthy (selectedBoardId s)).

(** The [<img>] carrying [onLoad] and [onError] is in the tree. *)
Definition streamImageMounted (s : State) : bool :=
  truthy_opt (jobId s) && negb (isPaused s) && truthy (streamUrl s).

(** *** Job controls *)

(** [onStart], up to its first [await]. *)
Definition onStart (w : World) : World * list Action :=
  let s := ui w in
  if negb (canStart s) then (w, [])
  else
    let w1 := w |> upd (setBusy true) |> upd (setImageLoaded false)
                |> upd (setStreamError None) |> upd (setCountdown 8)
                |> upd (setIsPaused false) in
    if truthy_opt (jobId s) then
      (w1 |> suspend (PSettleDelay (selectedBoardId s) (selectedCameraId s)
                        (selectedModelId s)),
       [SetTimeout 3000])
    else
      (w1 |> suspend PStart,
       [Call (startJob (selectedBoardId s) (selectedCameraId s)
                (selectedModelId s))]).

(** [onStart] from the end of the cleanup delay to [await startJob(...)]. *)
Definition onStart_delayed (b c m : string) (w : World)
  : World * list Action :=
  (w |> suspend PStart, [Call (startJob b c m)]).

(** [onStart] from the settlement of [startJob] to its end. *)
Definition onStart_settled (o : Outcome StartResult) (w : World)
  : World * list Action :=
  match o with
  | Resolved res =>
      (w |> upd (setJobId (Some (job_id res)))
         |> suspend (PWarmup (stream_url res))
         |> upd (setBusy false),
       [SetTimeout 8000])
  | Rejected msg =>
      (w |> upd (setStreamError (Some ("Failed to start: " ++ msg)))
         |> upd (setJobId None)
         |> upd (setStreamUrl EmptyString)
         |> upd (setBusy false),
       [Alert ("Start failed: " ++ msg)])
  end.

(** The callback of the warm-up timer. *)
Definition warmup_elapsed (stream_url : string) (w : World) : World :=
  w |> upd (setStreamUrl stream_url).

(** [onStop], up to [await stopJob(jobId)]. *)
Definition onStop (w : World) : World * list Action :=
  let s := ui w in
  if negb (truthy_opt (jobId s)) || busy s then (w, [])
  else
    match jobId s with
    | Some j => (w |> upd (setBusy true) |> suspend PStop, [Call (stopJob j)])
    | None => (w, [])
    end.

(** [onStop] from the settlement of [stopJob] to its end. *)
Definition onStop_settled (o : Outcome unit) (w : World)
  : World * list Action :=
  match o with
  | Resolved _ =>
      (w |> upd (setJobId None) |> upd (setStreamUrl EmptyString)
         |> upd (setImageLoaded false) |> upd (setStreamError None)
         |> upd (setCountdown 0) |> upd (setIsPaused false)
         |> upd (setEvents []) |> upd (setSelectedEvent None)
         |> upd (setProfiling None) |> upd (setSavedFrames [])
         |> upd (setIsVideoMinimized false)
         |> upd (setBusy false),
       [])
  | Rejected msg =>
      (w |> upd (setBusy false), [Alert ("Stop failed: " ++ msg)])
  end.

(** [onPause], up to [await resumeVideo(..)] or [await pauseVideo(..)]. *)
Definition onPause (w : World) : World * list Action :=
  let s := ui w in
  if negb (truthy_opt (jobId s)) || negb (truthy (selectedBoardId s))
  then (w, [])
  else
    let w1 := w |> upd (setBusy true) in
    if isPaused s
    then (w1 |> suspend PResume, [Call (resumeVideo (selectedBoardId s))])
    else (w1 |> suspend PPause, [Call (pauseVideo (selectedBoardId s))]).

(** [onPause] from the settlement of its request to its end; [resuming]
    tells which branch of [if (isPaused)] was taken. *)
Definition onPause_settled (resuming : bool) (o : Outcome unit) (w : World)
  : World * list Action :=
  match o with
  | Resolved _ =>
      (w |> upd (setIsPaused (negb resuming)) |> upd (setBusy false), [])
  | Rejected msg =>
      (w |> upd (setBusy false), [Alert ("Pause/resume failed: " ++ msg)])
  end.

(** *** Stream handlers *)

Definition handleImageLoad (w : World) : World :=
  w |> upd (setImageLoaded true) |> upd (setStreamError None).

Definition handleImageError (w : World) : World :=
  let s := ui w in
  let w1 := w |> upd (setImageLoaded false) in
  if Z.eqb (countdown s) 0 && truthy (streamUrl s) && truthy_opt (jobId s)
  then w1 |> upd (setStreamError (Some "Connection error. Retrying..."))
  else w1.

(** *** Pollers *)

Definition loadEvents (w : World) : World * list Action :=
  (w |> suspend PEvents, [Call (getRecentEvents 20)]).

Definition loadEvents_settled (o : Outcome (list Api.Event)) (w : World)
  : World :=
  match o with
  | Resolved ev => w |> upd (setEvents ev)
  | Rejected _ => w
  end.

(** The interval calls the [loadProfiling] of the render whose effect
    armed it, which reads the [jobId] of that render.  The effect clears
    and re-arms the interval at every change of [jobId], so while the
    interval is armed that [jobId] is the one of the state, which is what
    is read here; the captured value is not kept apart. *)
Definition loadProfiling (w : World) : World * list Action :=
  if negb (truthy_opt (jobId (ui w))) then (w, [])
  else
    match jobId (ui w) with
    | Some j => (w |> suspend PProfiling, [Call (getProfiling j)])
    | None => (w, [])
    end.

(** [data] is [None] when the body parsed to a falsy value. *)
Definition loadProfiling_settled (o : Outcome (option Api.ProfilingData))
    (w : World) : World :=
  match o with
  | Resolved (Some data) => w |> upd (setProfiling (Some data))
  | Resolved None => w
  | Rejected _ => w
  end.

Definition loadSavedFrames (w : World) : World * list Action :=
  (w |> suspend PSavedFrames, [Call fetchSavedFrames]).

(** [frames] is [None] when [response.ok] is false. *)
Definition loadSavedFrames_settled (o : Outcome (option (list SavedFrame)))
    (w : World) : World :=
  match o with
  | Resolved (Some frames) => w |> upd (setSavedFrames frames)
  | Resolved None => w
  | Rejected _ => w
  end.


(** *** Effects *)

(** [Object.is] on two values of [jobId]. *)
Definition same_jobId (a b : option string) : bool :=
  match a, b with
  | Some x, Some y => String.eqb x y
  | None, None => true
  | _, _ => false
  end.

(** [useEffect(..., [selectedBoardId])]: cameras and models loading. *)
Definition effect_catalog (prev : State) (w : World) : World * list Action :=
  let b := selectedBoardId (ui w) in
  if String.eqb (selectedBoardId prev) b then (w, [])
  else if negb (truthy b) then
    (w |> upd (setCameras []) |> upd (setModels []), [])
  else
    (w |> upd (setLoadingModels true) |> suspend PCatalog,
     [Call (getCameras b); Call (getModels b)]).

(** The rest of that effect, once [Promise.all] has settled: it resolves
    when both fetches have resolved and rejects as soon as one rejects. *)
Definition catalog_settled
    (o : Outcome (list Api.CameraItem * list Api.ModelItem)) (w : World)
  : World :=
  match o with
  | Resolved (c, m) =>
      w |> upd (setCameras c) |> upd (setModels m)
        |> upd (setLoadingModels false)
  | Rejected _ => w |> upd (setLoadingModels false)
  end.

(** [useEffect(..., [jobId])]: events polling.  When the dependency has
    changed, the cleanup returned by the previous run (there is one when
    that run armed the interval) is called, then the body. *)
Definition effect_events (prev : State) (w : World) : World * list Action :=
  if same_jobId (jobId prev) (jobId (ui w)) then (w, [])
  else
    let w0 := if truthy_opt (jobId prev)
              then w |> with_eventsInterval false else w in
    if negb (truthy_opt (jobId (ui w))) then
      (w0 |> with_eventsInterval false, [])
    else
      let '(w1, a) := loadEvents w0 in
      (w1 |> with_eventsInterval true, a).

(** [useEffect(..., [jobId])]: profiling polling. *)
Definition effect_profiling (prev : State) (w : World)
  : World * list Action :=
  if same_jobId (jobId prev) (jobId (ui w)) then (w, [])
  else
    let w0 := if truthy_opt (jobId prev)
              then w |> with_profilingInterval false else w in
    if negb (truthy_opt (jobId (ui w))) then
      (w0 |> with_profilingInterval false |> upd (setProfiling None), [])
    else
      let '(w1, a) := loadProfiling w0 in
      (w1 |> with_profilingInterval true, a).

(** [useEffect(..., [jobId])]: saved frames polling. *)
Definition effect_savedFrames (prev : State) (w : World)
  : World * list Action :=
  if same_jobId (jobId prev) (jobId (ui w)) then (w, [])
  else
    let w0 := if truthy_opt (jobId prev)
              then w |> with_savedFramesInterval false else w in
    if negb (truthy_opt (jobId (ui w))) then
      (w0 |> with_savedFramesInterval false |> upd (setSavedFrames []), [])
    else
      let '(w1, a) := loadSavedFrames w0 in
      (w1 |> with_savedFramesInterval true, a).

(** [useEffect(..., [countdown])]: the countdown helper. *)
Definition effect_countdown (prev : State) (w : World) : World :=
  if Z.eqb (countdown prev) (countdown (ui w)) then w
  else
    let w0 := if Z.leb (countdown prev) 0
              then w else w |> with_countdownInterval false in
    if Z.leb (countdown (ui w)) 0 then w0
    else w0 |> with_countdownInterval true.

(** The tick of the countdown interval. *)
Definition countdown_tick (w : World) : World :=
  w |> upd (fun s => setCountdown (Z.max 0 (countdown s - 1)) s).

(** The effects run after a render, in the order of the source, given the
    state [prev] of the render before. *)
Definition commit (prev : State) (w : World) : World * list Action :=
  let '(w1, a1) := effect_catalog prev w in
  let '(w2, a2) := effect_events prev w1 in
  let '(w3, a3) := effect_profiling prev w2 in
  let '(w4, a4) := effect_savedFrames prev w3 in
  (effect_countdown prev w4, (a1 ++ a2 ++ a3 ++ a4)%list).

(** *** The component as a transition system *)

(** What can happen to the mounted component. *)
Inductive Input :=
| ClickStart
| ClickStop
| ClickPause
| SelectBoard (value : string)
| SelectCamera (value : string)
| SelectModel (value : string)
| ImageLoad
| ImageError
| ClickEventItem (index : nat)
| CloseEventModal
| ClickEnlarge
| ClickMinimize
| ClickRestore
| CloseFullscreen
| SettleDelayElapsed
| WarmupElapsed
| CountdownTick
| EventsTick
| ProfilingTick
| SavedFramesTick
| StartSettled (o : Outcome StartResult)
| StopSettled (o : Outcome unit)
| PauseSettled (o : Outcome unit)
| ResumeSettled (o : Outcome unit)
| CatalogSettled (o : Outcome (list Api.CameraItem * list Api.ModelItem))
| EventsSettled (o : Outcome (list Api.Event))
| ProfilingSettled (o : Outcome (option Api.ProfilingData))
| SavedFramesSettled (o : Outcome (option (list SavedFrame))).

(** The continuation [p] is taken off the waiting list and run. *)
Definition resume {A} (p : Pending) (k : World -> A) (w : World) : option A :=
  match take (Pending_eqb p) (suspended w) with
  | Some (_, rest) => Some (k (w |> with_suspended rest))
  | None => None
  end.

Definition quiet (w : World) : World * list Action := (w, []).

(** The handler an input runs.  A control that is disabled or not in the
    tree runs nothing; a timer that is not armed and a request that is not
    in flight cannot fire or settle ([None]). *)
Definition handle (i : Input) (w : World) : option (World * list Action) :=
  let s := ui w in
  match i with
  | ClickStart => Some (if canStart s then onStart w else quiet w)
  | ClickStop => Some (if canStop s then onStop w else quiet w)
  | ClickPause => Some (if canPause s then onPause w else quiet w)
  | SelectBoard v =>
      Some (quiet (if boardSelectDisabled s then w
                   else w |> upd (setSelectedBoardId v)
                          |> upd (setSelectedCameraId EmptyString)
                          |> upd (setSelectedModelId EmptyString)))
  | SelectCamera v =>
      Some (quiet (if cameraSelectDisabled s then w
                   else w |> upd (setSelectedCameraId v)))
  | SelectModel v =>
      Some (quiet (if modelSelectDisabled s then w
                   else w |> upd (setSelectedModelId v)))
  | ImageLoad =>
      if streamImageMounted s then Some (quiet (handleImageLoad w)) else None
  | ImageError =>
      if streamImageMounted s then Some (quiet (handleImageError w)) else None
  | ClickEventItem n =>
      Some (quiet match nth_error (events s) n with
                  | Some ev => w |> upd (setSelectedEvent (Some ev))
                  | None => w
                  end)
  | CloseEventModal =>
      Some (quiet match selectedEvent s with
                  | Some _ => w |> upd (setSelectedEvent None)
                  | None => w
                  end)
  | ClickEnlarge =>
      Some (quiet (if streamImageMounted s
                      || (isVideoMinimized s && truthy (streamUrl s))
                   then w |> upd (setIsVideoFullscreen true) else w))
  | ClickMinimize =>
      Some (quiet (if streamImageMounted s
                   then w |> upd (setIsVideoMinimized true) else w))
  | ClickRestore =>
      Some (quiet (if isVideoMinimized s && truthy (streamUrl s)
                   then w |> upd (setIsVideoMinimized false) else w))
  | CloseFullscreen =>
      Some (quiet (if isVideoFullscreen s && truthy (streamUrl s)
                   then w |> upd (setIsVideoFullscreen false) else w))
  | SettleDelayElapsed =>
      match take is_settle_delay (suspended w) with
      | Some (PSettleDelay b c m, rest) =>
          Some (onStart_delayed b c m (w |> with_suspended rest))
      | _ => None
      end
  | WarmupElapsed =>
      match take is_warmup (suspended w) with
      | Some (PWarmup u, rest) =>
          Some (quiet (warmup_elapsed u (w |> with_suspended rest)))
      | _ => None
      end
  | CountdownTick =>
      if countdownInterval w then Some (quiet (countdown_tick w)) else None
  | EventsTick => if eventsInterval w then Some (loadEvents w) else None
  | ProfilingTick =>
      if profilingInterval w then Some (loadProfiling w) else None
  | SavedFramesTick =>
      if savedFramesInterval w then Some (loadSavedFrames w) else None
  | StartSettled o => resume PStart (onStart_settled o) w
  | StopSettled o => resume PStop (onStop_settled o) w
  | PauseSettled o => resume PPause (onPause_settled false o) w
  | ResumeSettled o => resume PResume (onPause_settled true o) w
  | CatalogSettled o => resume PCatalog (fun w => quiet (catalog_settled o w)) w
  | EventsSettled o =>
      resume PEvents (fun w => quiet (loadEvents_settled o w)) w
  | ProfilingSettled o =>
      resume PProfiling (fun w => quiet (loadProfiling_settled o w)) w
  | SavedFramesSettled o =>
      resume PSavedFrames (fun w => quiet (loadSavedFrames_settled o w)) w
  end.

(** One input: its handler, then the render and its effects. *)
Definition step (w : World) (i : Input) : option (World * list Action) :=
  match handle i w with
  | Some (w1, a1) =>
      let '(w2, a2) := commit (ui w) w1 in Some (w2, (a1 ++ a2)%list)
  | None => None
  end.

(** A sequence of inputs, with everything the component asked for. *)
Fixpoint run (w : World) (inputs : list Input)
  : option (World * list Action) :=
  match inputs with
  | [] => Some (w, [])
  | i :: rest =>
      match step w i with
      | Some (w1, a1) =>
          match run w1 rest with
          | Some (w2, a2) => Some (w2, (a1 ++ a2)%list)
          | None => None
          end
      | None => None
      end
  end.

(** The component once mounted, before [getBoards] settles. *)
Definition initial : World :=
  {| ui := {| cameras := []; models := [];
              selectedBoardId := EmptyString;
              selectedCameraId := EmptyString;
              selectedModelId := EmptyString;
              jobId := None; streamUrl := EmptyString; busy := false;
              isPaused := false; imageLoaded := false; streamError := None;
              countdown := 0; loadingModels := false; events := [];
              selectedEvent := None; savedFrames := []; profiling := None;
              isVideoMinimized := false; isVideoFullscreen := false |};
     eventsInterval := false; profilingInterval := false;
     savedFramesInterval := false; countdownInterval := false;
     suspended := [] |}.

(** A job is active: the test [jobId] of the source's guards. *)
Definition job_active (s : State) : bool := truthy_opt (jobId s).



(** *** Vocabulary of the statements below *)

(** The fields of the state that no effect writes. *)
Definition effects_frame (s s' : State) : Prop :=
  selectedBoardId s' = selectedBoardId s
  /\ selectedCameraId s' = selectedCameraId s
  /\ selectedModelId s' = selectedModelId s
  /\ jobId s' = jobId s
  /\ streamUrl s' = streamUrl s
  /\ busy s' = busy s
  /\ isPaused s' = isPaused s
  /\ imageLoaded s' = imageLoaded s
  /\ streamError s' = streamError s
  /\ countdown s' = countdown s
  /\ events s' = events s
  /\ selectedEvent s' = selectedEvent s
  /\ isVideoMinimized s' = isVideoMinimized s
  /\ isVideoFullscreen s' = isVideoFullscreen s.

(** The continuations an effect can leave waiting. *)
Definition spawned_by_effect (p : Pending) : bool :=
  match p with
  | PCatalog | PEvents | PProfiling | PSavedFrames => true
  | _ => false
  end.

(** Inputs other than a successful settlement of [startJob]. *)
Definition not_start_success (i : Input) : bool :=
  match i with
  | StartSettled (Resolved _) => false
  | _ => true
  end.

(** Inputs other than a settlement of the cameras and models fetch. *)
Definition not_catalog_settled (i : Input) : bool :=
  match i with
  | CatalogSettled _ => false
  | _ => true
  end.

(** No job is active and the three poller intervals are cleared. *)
Definition pollers_off (w : World) : Prop :=
  job_active (ui w) = false
  /\ eventsInterval w = false
  /\ profilingInterval w = false
  /\ savedFramesInterval w = false.

(** The intervals of [w] are as the effects left them at state [prev]. *)
Definition timers_follow (prev : State) (w : World) : Prop :=
  eventsInterval w = job_active prev
  /\ profilingInterval w = job_active prev
  /\ savedFramesInterval w = job_active prev
  /\ countdownInterval w = Z.ltb 0 (countdown prev).

(** No start is waiting in the cleanup delay. *)
Definition no_settle_delay (w : World) : Prop :=
  existsb is_settle_delay (suspended w) = false.

(** One round of the profiling poller: the interval fires, the request
    settles with [o]. *)
Definition profiling_round (o : Outcome (option Api.ProfilingData))
  : list Input :=
  [ProfilingTick; ProfilingSettled o].


(** The calls an effect can make. *)
Definition is_effect_call (a : Action) : bool :=
  match a with
  | Call (getCameras _) | Call (getModels _) => true
  | _ => is_poller_call a
  end.

(** What every effect guarantees of the world [w'] and the actions [a] it
    produces from [w]. *)
Definition effect_like (w w' : World) (a : list Action) : Prop :=
  effects_frame (ui w) (ui w')
  /\ (exists l, suspended w' = (suspended w ++ l)%list
                /\ forallb spawned_by_effect l = true)
  /\ forallb is_effect_call a = true.


(** The inputs that end an invocation of [onStart], [onStop] or [onPause]:
    the settlement of the request it awaits. *)
Definition completes_invocation (i : Input) : bool :=
  match i with
  | StartSettled _ | StopSettled _ | PauseSettled _ | ResumeSettled _ => true
  | _ => false
  end.

(** The waiting continuation a settlement resumes. *)
Definition awaited (i : Input) : option Pending :=
  match i with
  | StartSettled _ => Some PStart
  | StopSettled _ => Some PStop
  | PauseSettled _ => Some PPause
  | ResumeSettled _ => Some PResume
  | CatalogSettled _ => Some PCatalog
  | EventsSettled _ => Some PEvents
  | ProfilingSettled _ => Some PProfiling
  | SavedFramesSettled _ => Some PSavedFrames
  | _ => None
  end.

(** Is a continuation like [p] waiting? *)
Definition waiting (p : Pending) (w : World) : bool :=
  existsb (Pending_eqb p) (suspended w).


(** The poller-owned slices that the effects reset are empty. *)
Definition slices_cleared (w : World) : Prop :=
  profiling (ui w) = None /\ savedFrames (ui w) = [].


(** *** What the component reads of the promises of [api.ts] *)


(** The body of [loadSavedFrames] from the answer of its [fetch]: the
    frames when the response is [ok], nothing to apply when it is not, the
    error caught when [fetch] or [response.json()] rejects. *)
Definition savedFrames_outcome (f : Api.Fetched (list SavedFrame))
  : Outcome (option (list SavedFrame)) :=
  match f with
  | Api.NetworkError m => Rejected m
  | Api.Responded r =>
      if Api.ok r then
        match Api.json r with
        | Some frames => Resolved (Some frames)
        | None => Rejected (Api.json_error r)
        end
      else Resolved None
  end.

(** The timers of [w'] are those of [w]. *)
Definition same_timers (w w' : World) : Prop :=
  eventsInterval w' = eventsInterval w
  /\ profilingInterval w' = profilingInterval w
  /\ savedFramesInterval w' = savedFramesInterval w
  /\ countdownInterval w' = countdownInterval w.

(** While the models are shown as loading, a cameras/models fetch is in
    flight. *)
Definition loading_has_fetch (w : World) : Prop :=
  loadingModels (ui w) = true -> waiting PCatalog w = true.

(** The calls that act on a running job. *)
Definition is_job_control_call (a : Action) : bool :=
  match a with
  | Call (stopJob _) | Call (pauseVideo _) | Call (resumeVideo _) => true
  | _ => false
  end.

(** *** The job lifecycle, as invariants of the component *)

(** The continuations of [onStart], [onStop] and [onPause]. *)
Definition is_control (p : Pending) : bool :=
  match p with
  | PStart | PStop | PPause | PResume => true
  | _ => false
  end.

(** The job and video control requests in flight. *)
Definition in_flight (w : World) : list Pending :=
  filter is_control (suspended w).

(** [busy] and the control requests in flight: none when not busy; when
    busy exactly one, a start with no job active or a stop, pause or resume
    with a job active. *)
Definition lifecycle_ok (s : State) (fl : list Pending) : bool :=
  match fl with
  | [] => negb (busy s)
  | [PStart] => busy s && negb (job_active s)
  | [PStop] | [PPause] | [PResume] => busy s && job_active s
  | _ => false
  end.

(** With no job active the stream flags are down. *)
Definition idle_flags_ok (s : State) : bool :=
  job_active s
  || negb (imageLoaded s || isPaused s || isVideoMinimized s).

(** Without a board there is no camera or model selection; with a job
    active or being started all three selections are made. *)
Definition selection_ok (s : State) (fl : list Pending) : bool :=
  (truthy (selectedBoardId s)
   || negb (truthy (selectedCameraId s) || truthy (selectedModelId s)))
  && (negb (job_active s || existsb (Pending_eqb PStart) fl)
      || (truthy (selectedBoardId s) && truthy (selectedCameraId s)
          && truthy (selectedModelId s))).

(** The part of it that concerns the state and the requests in flight. *)
Definition core_ok (s : State) (fl : list Pending) : Prop :=
  lifecycle_ok s fl = true /\ idle_flags_ok s = true
  /\ selection_ok s fl = true /\ 0 <= countdown s <= 8.

(** What every reachable state of the component satisfies. *)
Definition coherent (w : World) : Prop :=
  timers_follow (ui w) w
  /\ no_settle_delay w
  /\ lifecycle_ok (ui w) (in_flight w) = true
  /\ idle_flags_ok (ui w) = true
  /\ selection_ok (ui w) (in_flight w) = true
  /\ 0 <= countdown (ui w) <= 8.


End App.

(** ** Scenarios used as concrete instances *)
Module Scenario.
Import App.

Definition cam_c1 : Api.CameraItem :=
  {| Api.camera_id_ := "c1"; Api.camera_name := "Gate";
     Api.camera_path := "/dev/video0" |}.

Definition model_m1 : Api.ModelItem :=
  {| Api.model_id_ := "m1"; Api.model_name := "Plates";
     Api.model_path := None; Api.script := None; Api.model_file := None |}.

(** Board [b1] chosen, its lists loaded, camera [c1] and model [m1] chosen. *)
Definition setup : list Input :=
  [SelectBoard "b1"; CatalogSettled (Resolved ([cam_c1], [model_m1]));
   SelectCamera "c1"; SelectModel "m1"].

Definition res_j42 : StartResult :=
  {| job_id := "j42"; stream_url := "http://192.168.1.56:8000/stream/j42" |}.

(** A start response whose [job_id] is the empty string. *)
Definition res_empty_id : StartResult :=
  {| job_id := EmptyString;
     stream_url := "http://192.168.1.56:8000/stream/" |}.

Definition world_after (inputs : list Input) : World :=
  match run initial inputs with
  | Some (w, _) => w
  | None => initial
  end.

(** Selections made, nothing started. *)
Definition ready : World := Eval vm_compute in world_after setup.

Definition start_j42 : list Input :=
  (setup ++ [ClickStart; StartSettled (Resolved res_j42)])%list.

(** Job [j42] running, its warm-up timer pending. *)
Definition running : World := Eval vm_compute in world_after start_j42.

Definition start_empty_id : list Input :=
  (setup ++ [ClickStart; StartSettled (Resolved res_empty_id)])%list.

(** The start request answered with an empty job id. *)
Definition started_empty_id : World :=
  Eval vm_compute in world_after start_empty_id.

(** Eight countdown ticks and the warm-up timer later: the stream address
    is assigned and the countdown is at 0. *)
Definition streaming : World :=
  Eval vm_compute in
    world_after (start_j42 ++ repeat CountdownTick 8 ++ [WarmupElapsed])%list.

Definition res_j43 : StartResult :=
  {| job_id := "j43"; stream_url := "http://192.168.1.56:8000/stream/j43" |}.

(** Job [j42] started and stopped within its warm-up; then job [j43]
    started, and the timer armed for [j42] elapses. *)
Definition restart_within_warmup : list Input :=
  (start_j42 ++ [ClickStop; StopSettled (Resolved tt); ClickStart;
                 StartSettled (Resolved res_j43); WarmupElapsed])%list.

Definition restarted : World :=
  Eval vm_compute in world_after restart_within_warmup.

Definition stop_requested : list Input := (start_j42 ++ [ClickStop])%list.

(** Job [j42] running, [stopJob] in flight. *)
Definition stopping : World := Eval vm_compute in world_after stop_requested.

(** Job [j42] stopped, one second into its warm-up. *)
Definition stopped : World :=
  Eval vm_compute in
    world_after (stop_requested ++ [StopSettled (Resolved tt)])%list.

(** The warm-up timer armed for [j42] elapses after the job was stopped. *)
Definition stopped_then_warmup : list Input :=
  (stop_requested ++ [StopSettled (Resolved tt); WarmupElapsed])%list.

Definition after_stale_warmup : World :=
  Eval vm_compute in world_after stopped_then_warmup.

(** From [ready], board [b2] is chosen; its fetches are in flight. *)
Definition board_changed : World :=
  Eval vm_compute in world_after (setup ++ [SelectBoard "b2"])%list.

(** A backend that answers every request with [500] and a message. *)
Definition failing_backend (_ : Api.HttpRequest) : Api.Fetched unit :=
  Api.Responded {| Api.ok := false;
                   Api.statusText := "Internal Server Error";
                   Api.json := Some tt;
                   Api.json_error := EmptyString;
                   Api.null_error := None;
                   Api.message := Some "no job running" |}.

Definition sample (fps frames : number) (stamp : string)
  : Api.ProfilingData :=
  {| Api.job_id := "j42"; Api.fps := fps; Api.resolution := "1280x720";
     Api.frame_count := frames; Api.inference_ms := 12.5%float;
     Api.model := "m1"; Api.camera := "c1"; Api.board := "b1";
     Api.frame_delay_ms := 33%float; Api.p_timestamp := stamp;
     Api.streaming := true |}.
Arguments sample (fps frames)%_float stamp%_string.

Definition asked_after (inputs : list Input) : list Action :=
  match run initial inputs with
  | Some (_, a) => a
  | None => []
  end.

(** What the component has asked for when [running] is reached. *)
Definition running_asked : list Action :=
  Eval vm_compute in asked_after start_j42.

Definition start_requested : list Input := (setup ++ [ClickStart])%list.

(** Start clicked, [startJob] in flight. *)
Definition starting : World := Eval vm_compute in world_after start_requested.

Definition starting_asked : list Action :=
  Eval vm_compute in asked_after start_requested.

Definition stop_settled : list Input :=
  (stop_requested ++ [StopSettled (Resolved tt)])%list.

Definition stopped_asked : list Action :=
  Eval vm_compute in asked_after stop_settled.

(** A saved-frames answer that is not [ok]. *)
Definition frames_unavailable : Api.Fetched (list SavedFrame) :=
  Api.Responded {| Api.ok := false; Api.statusText := "Not Found";
                   Api.json := None;
                   Api.json_error := "Unexpected token < in JSON at position 0";
                   Api.null_error := None; Api.message := None |}.

(** A backend that cannot be reached. *)
Definition offline (_ : Api.HttpRequest) : Api.Fetched unit :=
  Api.NetworkError "Failed to fetch".

(** A proxy that answers every request with [502] and an HTML page. *)
Definition bad_gateway (_ : Api.HttpRequest) : Api.Fetched unit :=
  Api.Responded {| Api.ok := false; Api.statusText := "Bad Gateway";
                   Api.json := None;
                   Api.json_error := "Unexpected token < in JSON at position 0";
                   Api.null_error := None; Api.message := None |}.

(** A backend that answers every request with [500] and the body [null]. *)
Definition null_answer (_ : Api.HttpRequest) : Api.Fetched unit :=
  Api.Responded {| Api.ok := false;
                   Api.statusText := "Internal Server Error";
                   Api.json := Some tt;
                   Api.json_error := EmptyString;
                   Api.null_error :=
                     Some "Cannot read properties of null (reading 'message')";
                   Api.message := None |}.

End Scenario.

Import App.

(** * Properties *)

(** ** Lists of waiting continuations *)

Lemma take_existsb (f g : Pending -> bool) (l r : list Pending) (q : Pending) :
  take f l = Some (q, r) -> existsb g l = false -> existsb g r = false.
Proof.
  revert r. induction l as [|x l IH]; cbn; intros r H Hg; [discriminate|].
  apply orb_false_iff in Hg as [Hx Hl].
  destruct (f x).
  - now inversion H; subst.
  - destruct (take f l) as [[q' r']|]; [|discriminate].
    inversion H; subst. cbn. rewrite Hx. now apply IH.
Qed.

Lemma take_found (f : Pending -> bool) (l r : list Pending) (q : Pending) :
  take f l = Some (q, r) -> f q = true /\ existsb f l = true.
Proof.
  revert r. induction l as [|x l IH]; cbn; intros r H; [discriminate|].
  destruct (f x) eqn:Hx.
  - inversion H; subst. now rewrite Hx.
  - destruct (take f l) as [[q' r']|]; [|discriminate].
    inversion H; subst. destruct (IH _ eq_refl) as [? ->]. auto.
Qed.

Lemma same_jobId_eq (a b : option string) : same_jobId a b = true -> a = b.
Proof.
  destruct a, b; cbn; try discriminate; auto.
  intros H. apply String.eqb_eq in H. now subst.
Qed.

Lemma same_jobId_refl (a : option string) : same_jobId a a = true.
Proof. destruct a; cbn; auto using String.eqb_refl. Qed.

(** ** Effects *)

Lemma effects_frame_refl (s : State) : effects_frame s s.
Proof. unfold effects_frame. repeat split. Qed.

Lemma effect_like_trans (w1 w2 w3 : World) (a b : list Action) :
  effect_like w1 w2 a -> effect_like w2 w3 b ->
  effect_like w1 w3 (a ++ b)%list.
Proof.
  intros (F1 & (l1 & S1 & L1) & A1) (F2 & (l2 & S2 & L2) & A2).
  split; [|split].
  - unfold effects_frame in *.
    repeat match goal with H : _ /\ _ |- _ => destruct H end.
    repeat split; congruence.
  - exists (l1 ++ l2)%list. rewrite S2, S1, <- app_assoc. split; [easy|].
    now rewrite forallb_app, L1, L2.
  - now rewrite forallb_app, A1, A2.
Qed.

Ltac effect_cases :=
  repeat (cbn; match goal with
               | |- context [if ?b then _ else _] => destruct b eqn:?
               | |- context [match ?o with Some _ => _ | None => _ end] =>
                   destruct o eqn:?
               end).

Ltac effect_like_now :=
  cbn; split; [unfold effects_frame; cbn; repeat split|];
  (split; [|reflexivity]);
  first [ exists []; cbn; now rewrite app_nil_r
        | eexists [_]; cbn; split; reflexivity ].

Lemma effect_catalog_like prev w :
  effect_like w (fst (effect_catalog prev w)) (snd (effect_catalog prev w)).
Proof. unfold effect_catalog. effect_cases; effect_like_now. Qed.

Lemma effect_events_like prev w :
  effect_like w (fst (effect_events prev w)) (snd (effect_events prev w)).
Proof. unfold effect_events, loadEvents. effect_cases; effect_like_now. Qed.

Lemma effect_profiling_like prev w :
  effect_like w (fst (effect_profiling prev w))
    (snd (effect_profiling prev w)).
Proof.
  unfold effect_profiling, loadProfiling. effect_cases; effect_like_now.
Qed.

Lemma effect_savedFrames_like prev w :
  effect_like w (fst (effect_savedFrames prev w))
    (snd (effect_savedFrames prev w)).
Proof.
  unfold effect_savedFrames, loadSavedFrames. effect_cases; effect_like_now.
Qed.

Lemma effect_countdown_like prev w :
  effect_like w (effect_countdown prev w) [].
Proof. unfold effect_countdown. effect_cases; effect_like_now. Qed.

Lemma commit_like prev w :
  effect_like w (fst (commit prev w)) (snd (commit prev w)).
Proof.
  unfold commit.
  pose proof (effect_catalog_like prev w) as H1.
  destruct (effect_catalog prev w) as [w1 a1].
  pose proof (effect_events_like prev w1) as H2.
  destruct (effect_events prev w1) as [w2 a2].
  pose proof (effect_profiling_like prev w2) as H3.
  destruct (effect_profiling prev w2) as [w3 a3].
  pose proof (effect_savedFrames_like prev w3) as H4.
  destruct (effect_savedFrames prev w3) as [w4 a4].
  pose proof (effect_countdown_like prev w4) as H5.
  cbn [fst snd] in *.
  replace (a1 ++ a2 ++ a3 ++ a4)%list
    with (a1 ++ a2 ++ a3 ++ a4 ++ [])%list by now rewrite app_nil_r.
  eauto using effect_like_trans.
Qed.

(** ** Timers after a render *)

Lemma effect_catalog_timers prev w :
  let w' := fst (effect_catalog prev w) in
  eventsInterval w' = eventsInterval w
  /\ profilingInterval w' = profilingInterval w
  /\ savedFramesInterval w' = savedFramesInterval w
  /\ countdownInterval w' = countdownInterval w.
Proof. unfold effect_catalog. effect_cases; auto. Qed.

Lemma effect_events_timers prev w :
  let w' := fst (effect_events prev w) in
  eventsInterval w' =
    (if same_jobId (jobId prev) (jobId (ui w)) then eventsInterval w
     else job_active (ui w))
  /\ profilingInterval w' = profilingInterval w
  /\ savedFramesInterval w' = savedFramesInterval w
  /\ countdownInterval w' = countdownInterval w.
Proof.
  unfold effect_events, loadEvents, job_active.
  effect_cases; repeat split; auto;
    match goal with H : negb _ = _ |- _ =>
      apply (f_equal negb) in H; rewrite negb_involutive in H; now rewrite H
    end.
Qed.

Lemma effect_profiling_timers prev w :
  let w' := fst (effect_profiling prev w) in
  eventsInterval w' = eventsInterval w
  /\ profilingInterval w' =
       (if same_jobId (jobId prev) (jobId (ui w)) then profilingInterval w
        else job_active (ui w))
  /\ savedFramesInterval w' = savedFramesInterval w
  /\ countdownInterval w' = countdownInterval w.
Proof.
  unfold effect_profiling, loadProfiling, job_active.
  destruct (same_jobId (jobId prev) (jobId (ui w))); [cbn; auto|].
  destruct (truthy_opt (jobId prev)); cbn;
    destruct (truthy_opt (jobId (ui w))) eqn:E; cbn; auto;
    destruct (jobId (ui w)); cbn; auto; discriminate.
Qed.

Lemma effect_savedFrames_timers prev w :
  let w' := fst (effect_savedFrames prev w) in
  eventsInterval w' = eventsInterval w
  /\ profilingInterval w' = profilingInterval w
  /\ savedFramesInterval w' =
       (if same_jobId (jobId prev) (jobId (ui w)) then savedFramesInterval w
        else job_active (ui w))
  /\ countdownInterval w' = countdownInterval w.
Proof.
  unfold effect_savedFrames, loadSavedFrames, job_active.
  effect_cases; repeat split; auto;
    match goal with H : negb _ = _ |- _ =>
      apply (f_equal negb) in H; rewrite negb_involutive in H; now rewrite H
    end.
Qed.

Lemma effect_countdown_timers prev w :
  countdownInterval w = Z.ltb 0 (countdown prev) ->
  let w' := effect_countdown prev w in
  eventsInterval w' = eventsInterval w
  /\ profilingInterval w' = profilingInterval w
  /\ savedFramesInterval w' = savedFramesInterval w
  /\ countdownInterval w' = Z.ltb 0 (countdown (ui w)).
Proof.
  intros H. unfold effect_countdown.
  destruct (Z.eqb_spec (countdown prev) (countdown (ui w))) as [E|E].
  - cbn. rewrite <- E. auto.
  - destruct (Z.leb_spec (countdown prev) 0);
      destruct (Z.leb_spec (countdown (ui w)) 0); cbn; repeat split; auto;
      rewrite ?H; lia.
Qed.

(** After a render the timers are those of the state rendered. *)
Lemma commit_timers prev w :
  timers_follow prev w ->
  timers_follow (ui (fst (commit prev w))) (fst (commit prev w)).
Proof.
  intros (He & Hp & Hs & Hc).
  pose proof (commit_like prev w) as (F & _ & _).
  unfold commit in *.
  pose proof (effect_catalog_timers prev w) as T1.
  pose proof (effect_catalog_like prev w) as (F1 & _ & _).
  destruct (effect_catalog prev w) as [w1 a1].
  pose proof (effect_events_timers prev w1) as T2.
  pose proof (effect_events_like prev w1) as (F2 & _ & _).
  destruct (effect_events prev w1) as [w2 a2].
  pose proof (effect_profiling_timers prev w2) as T3.
  pose proof (effect_profiling_like prev w2) as (F3 & _ & _).
  destruct (effect_profiling prev w2) as [w3 a3].
  pose proof (effect_savedFrames_timers prev w3) as T4.
  pose proof (effect_savedFrames_like prev w3) as (F4 & _ & _).
  destruct (effect_savedFrames prev w3) as [w4 a4].
  cbn [fst snd] in *. cbv zeta in *.
  assert (Hc4 : countdownInterval w4 = Z.ltb 0 (countdown prev)).
  { destruct T1 as (_ & _ & _ & R1), T2 as (_ & _ & _ & R2),
      T3 as (_ & _ & _ & R3), T4 as (_ & _ & _ & R4). congruence. }
  pose proof (effect_countdown_timers prev w4 Hc4) as T5.
  unfold effects_frame, job_active in *.
  destruct F as (_ & _ & _ & Fj & _ & _ & _ & _ & _ & Fc & _).
  destruct F1 as (_ & _ & _ & Fj1 & _ & _ & _ & _ & _ & Fc1 & _).
  destruct F2 as (_ & _ & _ & Fj2 & _ & _ & _ & _ & _ & Fc2 & _).
  destruct F3 as (_ & _ & _ & Fj3 & _ & _ & _ & _ & _ & Fc3 & _).
  destruct F4 as (_ & _ & _ & Fj4 & _ & _ & _ & _ & _ & Fc4 & _).
  cbv zeta in T5.
  destruct T1 as (E1 & P1 & S1 & _), T2 as (E2 & P2 & S2 & _),
    T3 as (E3 & P3 & S3 & _), T4 as (E4 & P4 & S4 & _),
    T5 as (E5 & P5 & S5 & C5).
  unfold timers_follow, job_active. rewrite Fj, Fc.
  rewrite E5, P5, S5, C5, E4, P4, S4, E3, P3, S3, E2, P2, S2.
  rewrite Fj3, Fj2, Fj1, Fc4, Fc3, Fc2, Fc1.
  destruct (same_jobId (jobId prev) (jobId (ui w))) eqn:J.
  - apply same_jobId_eq in J. rewrite <- J.
    rewrite E1, P1, S1. repeat split; auto.
  - repeat split; auto.
Qed.

(** ** Handlers *)

Lemma canStart_inv (s : State) :
  canStart s = true ->
  truthy (selectedBoardId s) = true /\ truthy (selectedCameraId s) = true
  /\ truthy (selectedModelId s) = true /\ busy s = false
  /\ truthy_opt (jobId s) = false.
Proof.
  unfold canStart. intros H.
  repeat (apply andb_prop in H; destruct H as [H ?]).
  repeat match goal with
         | H : negb _ = true |- _ => apply negb_true_iff in H
         end.
  auto.
Qed.

Ltac handle_cases H :=
  unfold handle, resume, quiet, onStart, onStart_delayed, onStart_settled,
    onStop, onStop_settled, onPause, onPause_settled, loadEvents,
    loadProfiling, loadSavedFrames, handleImageLoad, handleImageError,
    warmup_elapsed, countdown_tick, catalog_settled, loadEvents_settled,
    loadProfiling_settled, loadSavedFrames_settled in H;
  repeat match type of H with
         | context [match ?x with _ => _ end] => destruct x eqn:?
         end;
  try discriminate H;
  inversion H; subst; clear H.

Ltac start_guard_contradiction :=
  match goal with
  | C : canStart ?s = true, J : truthy_opt (jobId ?s) = true |- _ =>
      apply canStart_inv in C; destruct C as (_ & _ & _ & _ & C); congruence
  end.

(** No handler arms or clears an interval itself. *)
Lemma handle_timers i w w1 a :
  handle i w = Some (w1, a) ->
  eventsInterval w1 = eventsInterval w
  /\ profilingInterval w1 = profilingInterval w
  /\ savedFramesInterval w1 = savedFramesInterval w
  /\ countdownInterval w1 = countdownInterval w.
Proof. intros H. destruct i; handle_cases H; cbn; auto. Qed.

Lemma handle_no_settle_delay i w w1 a :
  handle i w = Some (w1, a) -> no_settle_delay w ->
  no_settle_delay w1 /\ existsb is_settle_wait a = false.
Proof.
  unfold no_settle_delay. intros H N.
  destruct i; handle_cases H; cbn; rewrite ?existsb_app, ?N; cbn; auto;
    try start_guard_contradiction;
    try (split; [eapply take_existsb; eauto|reflexivity]).
  - match goal with
    | T : take _ _ = Some (PSettleDelay _ _ _, _) |- _ =>
        apply take_found in T; destruct T as [_ T]; congruence
    end.
  - rewrite orb_false_r. split; [eapply take_existsb; eauto|reflexivity].
Qed.

(** While a job is active only a start left in the cleanup delay could
    still call [startJob]. *)
Lemma handle_no_start_call i w w1 a :
  handle i w = Some (w1, a) -> job_active (ui w) = true ->
  no_settle_delay w -> existsb is_start_call a = false.
Proof.
  unfold no_settle_delay, job_active. intros H J N.
  destruct i; handle_cases H; cbn; auto; try start_guard_contradiction.
  all: try match goal with
           | C : canStart _ = true |- _ =>
               apply canStart_inv in C;
               destruct C as (_ & _ & _ & _ & C); congruence
           end.
  - match goal with
    | T : take _ _ = Some (PSettleDelay _ _ _, _) |- _ =>
        apply take_found in T; destruct T as [_ T]; congruence
    end.
Qed.

(** With no job active and the poller intervals cleared, no handler calls
    a poller, and only a successful start makes a job active. *)
Lemma handle_pollers_off i w w1 a :
  handle i w = Some (w1, a) -> not_start_success i = true ->
  job_active (ui w) = false -> timers_follow (ui w) w ->
  existsb is_poller_call a = false /\ job_active (ui w1) = false.
Proof.
  unfold job_active. intros H S J (Te & Tp & Ts & _).
  unfold job_active in *. rewrite J in Te, Tp, Ts.
  destruct i; handle_cases H; cbn in *; try discriminate; auto;
    split; auto; try congruence.
  rewrite Heqo. exact J.
Qed.

(** ** Steps and runs *)

Lemma step_inv w i w' a :
  step w i = Some (w', a) ->
  exists w1 a1, handle i w = Some (w1, a1)
                /\ w' = fst (commit (ui w) w1)
                /\ a = (a1 ++ snd (commit (ui w) w1))%list.
Proof.
  unfold step. destruct (handle i w) as [[w1 a1]|]; [|discriminate].
  destruct (commit (ui w) w1) as [w2 a2] eqn:E. intros H.
  inversion H; subst. exists w1, a1. now rewrite E.
Qed.

(** Every render leaves the timers as the rendered state wants them. *)
Lemma step_timers w i w' a :
  timers_follow (ui w) w -> step w i = Some (w', a) ->
  timers_follow (ui w') w'.
Proof.
  intros T H. apply step_inv in H as (w1 & a1 & H & -> & _).
  apply commit_timers. apply handle_timers in H as (E & P & S & C).
  unfold timers_follow in *. now rewrite E, P, S, C.
Qed.

Lemma effect_calls_not_settle_wait (a : list Action) :
  forallb is_effect_call a = true -> existsb is_settle_wait a = false.
Proof.
  induction a as [|x a IH]; cbn; [easy|].
  intros H. apply andb_prop in H as [Hx Ha]. rewrite (IH Ha).
  destruct x as [[]| |]; cbn in *; try discriminate; reflexivity.
Qed.

Lemma effect_calls_not_start (a : list Action) :
  forallb is_effect_call a = true -> existsb is_start_call a = false.
Proof.
  induction a as [|x a IH]; cbn; [easy|].
  intros H. apply andb_prop in H as [Hx Ha]. rewrite (IH Ha).
  destruct x as [[]| |]; cbn in *; try discriminate; reflexivity.
Qed.

Lemma spawned_not_settle_delay (l : list Pending) :
  forallb spawned_by_effect l = true -> existsb is_settle_delay l = false.
Proof.
  induction l as [|x l IH]; cbn; [easy|].
  intros H. apply andb_prop in H as [Hx Hl]. rewrite (IH Hl).
  destruct x; cbn in *; try discriminate; reflexivity.
Qed.

(** The cleanup delay of [onStart] is never entered. *)
Lemma step_no_settle_delay w i w' a :
  no_settle_delay w -> step w i = Some (w', a) ->
  no_settle_delay w' /\ existsb is_settle_wait a = false.
Proof.
  intros N H. apply step_inv in H as (w1 & a1 & H & -> & ->).
  destruct (handle_no_settle_delay _ _ _ _ H N) as [N1 A1].
  destruct (commit_like (ui w) w1) as (_ & (l & S & L) & C).
  unfold no_settle_delay in *. split.
  - now rewrite S, existsb_app, N1, spawned_not_settle_delay.
  - now rewrite existsb_app, A1, effect_calls_not_settle_wait.
Qed.

(** What holds of the component in whatever state a run leaves it. *)
Lemma run_invariant w inputs w' a :
  timers_follow (ui w) w -> no_settle_delay w ->
  run w inputs = Some (w', a) ->
  timers_follow (ui w') w' /\ no_settle_delay w'
  /\ existsb is_settle_wait a = false.
Proof.
  revert w a. induction inputs as [|i inputs IH]; cbn; intros w a T N H.
  - inversion H; subst. auto.
  - destruct (step w i) as [[w1 a1]|] eqn:S; [|discriminate].
    destruct (run w1 inputs) as [[w2 a2]|] eqn:R; [|discriminate].
    inversion H; subst.
    destruct (step_no_settle_delay _ _ _ _ N S) as [N1 A1].
    destruct (IH _ _ (step_timers _ _ _ _ T S) N1 R) as (T2 & N2 & A2).
    split; [exact T2|]. split; [exact N2|].
    now rewrite existsb_app, A1, A2.
Qed.

Lemma initial_timers : timers_follow (ui initial) initial.
Proof. repeat split. Qed.

Lemma initial_no_settle_delay : no_settle_delay initial.
Proof. reflexivity. Qed.

Lemma commit_unchanged w : commit (ui w) w = (w, []).
Proof.
  unfold commit, effect_catalog. rewrite String.eqb_refl.
  unfold effect_events. rewrite same_jobId_refl.
  unfold effect_profiling. rewrite same_jobId_refl.
  unfold effect_savedFrames. rewrite same_jobId_refl.
  unfold effect_countdown. now rewrite Z.eqb_refl.
Qed.

(** ** C1: one job at a time *)

(** C1, as stated, fails: a job id that is not [null] but empty does not
    stop a further start.  The run below answers the first start with an
    empty [job_id]; the state reached has a non-null job id, and the next
    click on Start calls [startJob] again. *)
Lemma start_accepted_with_empty_job_id :
  run initial Scenario.start_empty_id
  = Some (Scenario.started_empty_id,
          [Call (getCameras "b1"); Call (getModels "b1");
           Call (startJob "b1" "c1" "m1"); SetTimeout 8000])
  /\ jobId (ui Scenario.started_empty_id) = Some EmptyString
  /\ jobId (ui Scenario.started_empty_id) <> None
  /\ snd (onStart Scenario.started_empty_id)
     = [Call (startJob "b1" "c1" "m1")]
  /\ exists w, step Scenario.started_empty_id ClickStart
               = Some (w, [Call (startJob "b1" "c1" "m1")]).
Proof.
  split; [vm_compute; reflexivity|].
  split; [reflexivity|]. split; [discriminate|].
  split; [reflexivity|]. eexists. vm_compute. reflexivity.
Qed.

(** C1 (amended): in every state the mounted component can reach, if a job
    is active, that is if [jobId] is truthy (neither [null] nor empty),
    [onStart] returns at its guard, without any call and without changing
    anything; a click on Start does nothing; and whatever happens next, the
    step it takes does not call [startJob]. *)
Theorem start_rejected_while_job_active inputs w a :
  run initial inputs = Some (w, a) ->
  job_active (ui w) = true ->
  onStart w = (w, [])
  /\ step w ClickStart = Some (w, [])
  /\ forall i w' a', step w i = Some (w', a') ->
                     existsb is_start_call a' = false.
Proof.
  intros R J.
  assert (C : canStart (ui w) = false).
  { unfold canStart. unfold job_active in J. rewrite J. cbn.
    now rewrite !andb_false_r. }
  split; [|split].
  - unfold onStart. now rewrite C.
  - unfold step, handle. rewrite C. unfold quiet.
    now rewrite commit_unchanged.
  - intros i w' a' S.
    destruct (run_invariant _ _ _ _ initial_timers initial_no_settle_delay R)
      as (_ & N & _).
    apply step_inv in S as (w1 & a1 & H & _ & ->).
    rewrite existsb_app, (handle_no_start_call _ _ _ _ H J N).
    destruct (commit_like (ui w) w1) as (_ & _ & E).
    now rewrite effect_calls_not_start.
Qed.

Lemma start_rejected_while_job_active_witness :
  onStart Scenario.running = (Scenario.running, [])
  /\ step Scenario.running ClickStart = Some (Scenario.running, [])
  /\ forall i w' a', step Scenario.running i = Some (w', a') ->
                     existsb is_start_call a' = false.
Proof.
  apply (start_rejected_while_job_active Scenario.start_j42 Scenario.running
           [Call (getCameras "b1"); Call (getModels "b1");
            Call (startJob "b1" "c1" "m1"); SetTimeout 8000;
            Call (getRecentEvents 20); Call (getProfiling "j42");
            Call fetchSavedFrames]).
  - vm_compute. reflexivity.
  - reflexivity.
Defined.

(** ** C9: the cleanup delay of [onStart] *)

(** C9: when the guard of [onStart] passes, [jobId] is falsy, so the branch
    [if (jobId) await ...3000...] is not taken: the handler sets its flags
    and calls [startJob] at once, the only thing it asks for, and it then
    waits for that call alone.  In no run of the mounted component is the
    3000 ms timer ever armed or a start left waiting in it. *)
Theorem start_never_waits_settle_delay w :
  canStart (ui w) = true ->
  truthy_opt (jobId (ui w)) = false
  /\ snd (onStart w)
     = [Call (startJob (selectedBoardId (ui w)) (selectedCameraId (ui w))
                (selectedModelId (ui w)))]
  /\ existsb is_settle_wait (snd (onStart w)) = false
  /\ suspended (fst (onStart w)) = (suspended w ++ [PStart])%list
  /\ busy (ui (fst (onStart w))) = true
  /\ forall inputs w' a,
       run initial inputs = Some (w', a) ->
       existsb is_settle_wait a = false /\ no_settle_delay w'.
Proof.
  intros C. pose proof (canStart_inv _ C) as (_ & _ & _ & _ & J).
  unfold onStart. rewrite C, J. cbn.
  repeat split; auto;
    destruct (run_invariant _ _ _ _ initial_timers initial_no_settle_delay H)
      as (_ & N & A); assumption.
Qed.

Lemma start_never_waits_settle_delay_witness :
  truthy_opt (jobId (ui Scenario.ready)) = false
  /\ snd (onStart Scenario.ready) = [Call (startJob "b1" "c1" "m1")]
  /\ existsb is_settle_wait (snd (onStart Scenario.ready)) = false
  /\ suspended (fst (onStart Scenario.ready))
     = (suspended Scenario.ready ++ [PStart])%list
  /\ busy (ui (fst (onStart Scenario.ready))) = true
  /\ forall inputs w' a,
       run initial inputs = Some (w', a) ->
       existsb is_settle_wait a = false /\ no_settle_delay w'.
Proof.
  apply (start_never_waits_settle_delay Scenario.ready). reflexivity.
Defined.

(** ** Requests in flight *)

Lemma take_enabled (f : Pending -> bool) (l : list Pending) :
  existsb f l = true -> exists q r, take f l = Some (q, r).
Proof.
  induction l as [|x l IH]; cbn; [discriminate|].
  destruct (f x); [eauto|]. cbn. intros H.
  destruct (IH H) as (q & r & ->). eauto.
Qed.

(** A render whose dependencies are those of the render before runs no
    effect. *)
Lemma commit_same_deps prev w :
  selectedBoardId (ui w) = selectedBoardId prev ->
  jobId (ui w) = jobId prev ->
  countdown (ui w) = countdown prev ->
  commit prev w = (w, []).
Proof.
  intros B J C.
  unfold commit, effect_catalog. rewrite B, String.eqb_refl.
  unfold effect_events. rewrite J, same_jobId_refl.
  unfold effect_profiling. rewrite J, same_jobId_refl.
  unfold effect_savedFrames. rewrite J, same_jobId_refl.
  unfold effect_countdown. now rewrite C, Z.eqb_refl.
Qed.

(** An enabled input takes a step; the effects only add to what the
    handler left. *)
Lemma step_after_handle i w w1 a1 :
  handle i w = Some (w1, a1) ->
  exists w' a l,
    step w i = Some (w', a)
    /\ effects_frame (ui w1) (ui w')
    /\ suspended w' = (suspended w1 ++ l)%list.
Proof.
  intros H. unfold step. rewrite H.
  destruct (commit_like (ui w) w1) as (F & (l & S & _) & _).
  destruct (commit (ui w) w1) as [w2 a2]. cbn in *. eauto 7.
Qed.

Lemma setBusy_restore (s : State) :
  busy s = false -> setBusy false (setBusy true s) = s.
Proof. destruct s; cbn; intros ->; reflexivity. Qed.

(** ** C2: a stop that fails *)

(** The rest of [onStop] after [stopJob] has thrown, in any state: the
    alert, then [setBusy(false)], and nothing else. *)
Lemma stop_rejected_step w msg w' a :
  step w (StopSettled (Rejected msg)) = Some (w', a) ->
  ui w' = setBusy false (ui w)
  /\ a = [Alert ("Stop failed: " ++ msg)]
  /\ eventsInterval w' = eventsInterval w
  /\ profilingInterval w' = profilingInterval w
  /\ savedFramesInterval w' = savedFramesInterval w
  /\ countdownInterval w' = countdownInterval w.
Proof.
  unfold step, handle, resume.
  destruct (take (Pending_eqb PStop) (suspended w)) as [[q r]|];
    [|discriminate].
  cbn. rewrite commit_same_deps by reflexivity.
  intros H. inversion H; subst. cbn. auto 7.
Qed.

(** C2: a stop invoked where it is allowed, whose [stopJob] call throws,
    ends in the state it started from: job id, stream address, events,
    profiling snapshot, saved frames, pause flag and stream-loaded flag (and
    every other state value) are as before, the three poller intervals and
    the countdown interval are as before, and [busy], raised meanwhile, is
    [false] again.  The invocation asks for the [stopJob] call and the
    alert, nothing else. *)
Theorem failed_stop_keeps_job_state w msg :
  canStop (ui w) = true ->
  exists j w1 w2,
    jobId (ui w) = Some j
    /\ step w ClickStop = Some (w1, [Call (stopJob j)])
    /\ busy (ui w1) = true
    /\ step w1 (StopSettled (Rejected msg))
       = Some (w2, [Alert ("Stop failed: " ++ msg)])
    /\ jobId (ui w2) = jobId (ui w)
    /\ streamUrl (ui w2) = streamUrl (ui w)
    /\ events (ui w2) = events (ui w)
    /\ profiling (ui w2) = profiling (ui w)
    /\ savedFrames (ui w2) = savedFrames (ui w)
    /\ isPaused (ui w2) = isPaused (ui w)
    /\ imageLoaded (ui w2) = imageLoaded (ui w)
    /\ ui w2 = ui w
    /\ busy (ui w2) = false
    /\ eventsInterval w2 = eventsInterval w
    /\ profilingInterval w2 = profilingInterval w
    /\ savedFramesInterval w2 = savedFramesInterval w
    /\ countdownInterval w2 = countdownInterval w.
Proof.
  intros C. pose proof C as C'. unfold canStop in C'.
  apply andb_prop in C' as [J B]. apply negb_true_iff in B.
  destruct (jobId (ui w)) as [j|] eqn:Ej; [|discriminate].
  set (w1 := suspend PStop (upd (setBusy true) w)).
  assert (S1 : step w ClickStop = Some (w1, [Call (stopJob j)])).
  { unfold step, handle, onStop. rewrite C, Ej. cbn [truthy_opt].
    cbn [truthy_opt] in J. rewrite J, B. cbn [negb orb].
    now rewrite commit_same_deps by reflexivity. }
  destruct (take_enabled (Pending_eqb PStop) (suspended w1)) as (q & r & T).
  { subst w1. cbn. rewrite existsb_app. cbn. now rewrite orb_true_r. }
  assert (H : handle (StopSettled (Rejected msg)) w1
              = Some (upd (setBusy false) (with_suspended r w1),
                      [Alert ("Stop failed: " ++ msg)])).
  { unfold handle, resume. now rewrite T. }
  destruct (step_after_handle _ _ _ _ H) as (w2 & a2 & l & S2 & _ & _).
  destruct (stop_rejected_step _ _ _ _ S2) as (U & -> & Ie & Ip & Is & Ic).
  assert (U' : ui w2 = ui w).
  { rewrite U. subst w1. cbn. now apply setBusy_restore. }
  exists j, w1, w2. rewrite U'.
  repeat split; auto.
Qed.

Lemma failed_stop_keeps_job_state_witness :
  exists j w1 w2,
    jobId (ui Scenario.running) = Some j
    /\ step Scenario.running ClickStop = Some (w1, [Call (stopJob j)])
    /\ busy (ui w1) = true
    /\ step w1 (StopSettled (Rejected "Internal Server Error"))
       = Some (w2, [Alert ("Stop failed: " ++ "Internal Server Error")])
    /\ jobId (ui w2) = jobId (ui Scenario.running)
    /\ streamUrl (ui w2) = streamUrl (ui Scenario.running)
    /\ events (ui w2) = events (ui Scenario.running)
    /\ profiling (ui w2) = profiling (ui Scenario.running)
    /\ savedFrames (ui w2) = savedFrames (ui Scenario.running)
    /\ isPaused (ui w2) = isPaused (ui Scenario.running)
    /\ imageLoaded (ui w2) = imageLoaded (ui Scenario.running)
    /\ ui w2 = ui Scenario.running
    /\ busy (ui w2) = false
    /\ eventsInterval w2 = eventsInterval Scenario.running
    /\ profilingInterval w2 = profilingInterval Scenario.running
    /\ savedFramesInterval w2 = savedFramesInterval Scenario.running
    /\ countdownInterval w2 = countdownInterval Scenario.running.
Proof.
  apply (failed_stop_keeps_job_state Scenario.running). reflexivity.
Defined.

(** ** C8: the busy flag *)

(** A settlement whose continuation is waiting can be delivered. *)
Lemma settlement_enabled i p w :
  awaited i = Some p -> waiting p w = true ->
  exists w' a, step w i = Some (w', a).
Proof.
  unfold waiting. intros A W.
  destruct (take_enabled _ _ W) as (q & r & T).
  assert (exists x, handle i w = Some x) as [[w1 a1] H].
  { destruct i; cbn in A; inversion A; subst;
      unfold handle, resume; rewrite T; eauto. }
  destruct (step_after_handle _ _ _ _ H) as (w' & a & _ & S & _). eauto.
Qed.

(** Whatever the state in which it is delivered and whatever the outcome,
    the settlement of a job-control request leaves [busy] cleared. *)
Lemma settlement_clears_busy i w w' a :
  completes_invocation i = true -> step w i = Some (w', a) ->
  busy (ui w') = false.
Proof.
  intros C S. apply step_inv in S as (w1 & a1 & H & -> & _).
  destruct (commit_like (ui w) w1) as (F & _ & _).
  destruct F as (_ & _ & _ & _ & _ & -> & _).
  destruct i; try discriminate C; handle_cases H; reflexivity.
Qed.

(** After a step, what the handler left waiting is still waiting. *)
Lemma step_keeps_waiting i w w1 a1 w' a p :
  handle i w = Some (w1, a1) -> step w i = Some (w', a) ->
  waiting p w1 = true -> waiting p w' = true.
Proof.
  intros H S W. destruct (step_after_handle _ _ _ _ H) as (x & y & l & S' & _ & E).
  rewrite S in S'. inversion S'; subst. unfold waiting in *.
  now rewrite E, existsb_app, W.
Qed.

(** An invocation that has raised [busy] and is waiting for its request
    is in the same position once the render is done. *)
Lemma invocation_started w click p w1 a1 :
  handle click w = Some (w1, a1) -> busy (ui w1) = true ->
  waiting p w1 = true ->
  exists w1' a1',
    step w click = Some (w1', a1') /\ busy (ui w1') = true
    /\ waiting p w1' = true.
Proof.
  intros H B W.
  destruct (step_after_handle _ _ _ _ H) as (w1' & a1' & l & S & F & _).
  exists w1', a1'. split; [exact S|]. split.
  - destruct F as (_ & _ & _ & _ & _ & -> & _). exact B.
  - eapply step_keeps_waiting; eauto.
Qed.

Lemma waiting_suspend p w : waiting p (suspend p w) = true.
Proof.
  unfold waiting, suspend. cbn. rewrite existsb_app. cbn.
  replace (Pending_eqb p p) with true; [apply orb_true_r|].
  destruct p; cbn; now rewrite ?String.eqb_refl.
Qed.

(** From a handler that has raised [busy] and suspended itself on [p] to
    the conclusion of C8 for the settlements [settle o]. *)
Ltac invocation_completes H p settle :=
  let w1 := fresh "w1" in
  let a1 := fresh "a1" in
  let S := fresh "S" in
  let B := fresh "B" in
  let W := fresh "W" in
  destruct (invocation_started _ _ p _ _ H eq_refl (waiting_suspend p _))
    as (w1 & a1 & S & B & W);
  exists w1, a1; split; [exact S|]; split; [exact B|];
  let o := fresh "o" in
  intros o;
  let w2 := fresh "w2" in
  let a2 := fresh "a2" in
  let S2 := fresh "S2" in
  destruct (settlement_enabled (settle o) p w1 eq_refl W) as (w2 & a2 & S2);
  exists w2, a2; split; [exact S2|];
  exact (settlement_clears_busy (settle o) _ _ _ eq_refl S2).

(** C8: an invocation of start, stop or pause/resume that passes its guard
    raises [busy] and issues its request; however that request settles,
    resolved or rejected, the settlement can be delivered and the step that
    handles it ends with [busy] cleared.  More generally the settlement of
    such a request clears [busy] in whatever state it arrives. *)
Theorem busy_cleared_on_every_path w :
  (canStart (ui w) = true ->
   exists w1 a1,
     step w ClickStart = Some (w1, a1) /\ busy (ui w1) = true
     /\ forall o, exists w2 a2,
          step w1 (StartSettled o) = Some (w2, a2) /\ busy (ui w2) = false)
  /\ (canStop (ui w) = true ->
      exists w1 a1,
        step w ClickStop = Some (w1, a1) /\ busy (ui w1) = true
        /\ forall o, exists w2 a2,
             step w1 (StopSettled o) = Some (w2, a2)
             /\ busy (ui w2) = false)
  /\ (canPause (ui w) = true -> truthy (selectedBoardId (ui w)) = true ->
      exists w1 a1,
        step w ClickPause = Some (w1, a1) /\ busy (ui w1) = true
        /\ forall o, exists w2 a2,
             step w1 (if isPaused (ui w) then ResumeSettled o
                      else PauseSettled o) = Some (w2, a2)
             /\ busy (ui w2) = false)
  /\ (forall i w' a,
        completes_invocation i = true -> step w i = Some (w', a) ->
        busy (ui w') = false).
Proof.
  split; [|split; [|split]].
  - intros C. pose proof (canStart_inv _ C) as (_ & _ & _ & _ & J).
    assert (H : handle ClickStart w
                = Some (suspend PStart
                          (upd (setIsPaused false)
                             (upd (setCountdown 8)
                                (upd (setStreamError None)
                                   (upd (setImageLoaded false)
                                      (upd (setBusy true) w))))),
                        [Call (startJob (selectedBoardId (ui w))
                                 (selectedCameraId (ui w))
                                 (selectedModelId (ui w)))])).
    { unfold handle, onStart. now rewrite C, J. }
    invocation_completes H PStart StartSettled.
  - intros C. pose proof C as C'. unfold canStop in C'.
    apply andb_prop in C' as [J B0]. apply negb_true_iff in B0.
    destruct (jobId (ui w)) as [j|] eqn:Ej; [|discriminate].
    assert (H : handle ClickStop w
                = Some (suspend PStop (upd (setBusy true) w),
                        [Call (stopJob j)])).
    { unfold handle, onStop. rewrite C, Ej. cbn [truthy_opt] in *.
      now rewrite J, B0. }
    invocation_completes H PStop StopSettled.
  - intros C Hb. pose proof C as C'. unfold canPause in C'.
    apply andb_prop in C' as [J _].
    destruct (isPaused (ui w)) eqn:P.
    + assert (H : handle ClickPause w
                  = Some (suspend PResume (upd (setBusy true) w),
                          [Call (resumeVideo (selectedBoardId (ui w)))])).
      { unfold handle, onPause. now rewrite C, J, Hb, P. }
      invocation_completes H PResume ResumeSettled.
    + assert (H : handle ClickPause w
                  = Some (suspend PPause (upd (setBusy true) w),
                          [Call (pauseVideo (selectedBoardId (ui w)))])).
      { unfold handle, onPause. now rewrite C, J, Hb, P. }
      invocation_completes H PPause PauseSettled.
  - intros i w' a. apply settlement_clears_busy.
Qed.

Lemma busy_cleared_on_every_path_witness :
  (exists w1 a1,
     step Scenario.ready ClickStart = Some (w1, a1) /\ busy (ui w1) = true
     /\ forall o, exists w2 a2,
          step w1 (StartSettled o) = Some (w2, a2) /\ busy (ui w2) = false)
  /\ (exists w1 a1,
        step Scenario.running ClickStop = Some (w1, a1)
        /\ busy (ui w1) = true
        /\ forall o, exists w2 a2,
             step w1 (StopSettled o) = Some (w2, a2)
             /\ busy (ui w2) = false)
  /\ (exists w1 a1,
        step Scenario.running ClickPause = Some (w1, a1)
        /\ busy (ui w1) = true
        /\ forall o, exists w2 a2,
             step w1 (PauseSettled o) = Some (w2, a2)
             /\ busy (ui w2) = false).
Proof.
  split; [|split].
  - apply (proj1 (busy_cleared_on_every_path Scenario.ready)). reflexivity.
  - apply (proj1 (proj2 (busy_cleared_on_every_path Scenario.running))).
    reflexivity.
  - apply (proj1 (proj2 (proj2
                    (busy_cleared_on_every_path Scenario.running))));
      reflexivity.
Defined.

(** ** C6: render failures and the warm-up countdown *)

(** C6: [handleImageError] run while the countdown is above 0 leaves the
    error text as it was; run when the countdown is 0, the stream address
    is assigned (truthy) and a job is active, it sets the error text.  The
    same holds of the whole step an [error] event of the image takes. *)
Theorem image_error_respects_warmup w :
  (0 < countdown (ui w) ->
   streamError (ui (handleImageError w)) = streamError (ui w)
   /\ forall w' a, step w ImageError = Some (w', a) ->
                   streamError (ui w') = streamError (ui w))
  /\ (countdown (ui w) = 0 -> truthy (streamUrl (ui w)) = true ->
      job_active (ui w) = true ->
      streamError (ui (handleImageError w))
      = Some "Connection error. Retrying..."
      /\ forall w' a, step w ImageError = Some (w', a) ->
                      streamError (ui w')
                      = Some "Connection error. Retrying...").
Proof.
  assert (K : forall w' a, step w ImageError = Some (w', a) ->
                           streamError (ui w')
                           = streamError (ui (handleImageError w))).
  { intros w' a S. apply step_inv in S as (w1 & a1 & H & -> & _).
    destruct (commit_like (ui w) w1) as (F & _ & _).
    destruct F as (_ & _ & _ & _ & _ & _ & _ & _ & -> & _).
    unfold handle in H. destruct (streamImageMounted (ui w)); [|discriminate].
    now inversion H. }
  split.
  - intros C.
    assert (E : streamError (ui (handleImageError w)) = streamError (ui w)).
    { unfold handleImageError.
      destruct (Z.eqb_spec (countdown (ui w)) 0) as [Z|Z]; [lia|].
      reflexivity. }
    split; [exact E|]. intros w' a S. now rewrite (K _ _ S).
  - intros C U J.
    assert (E : streamError (ui (handleImageError w))
                = Some "Connection error. Retrying...").
    { unfold handleImageError, job_active in *. rewrite C, U, J.
      reflexivity. }
    split; [exact E|]. intros w' a S. now rewrite (K _ _ S).
Qed.

Lemma image_error_respects_warmup_witness :
  (streamError (ui (handleImageError Scenario.restarted))
   = streamError (ui Scenario.restarted)
   /\ forall w' a, step Scenario.restarted ImageError = Some (w', a) ->
                   streamError (ui w')
                   = streamError (ui Scenario.restarted))
  /\ (streamError (ui (handleImageError Scenario.streaming))
      = Some "Connection error. Retrying..."
      /\ forall w' a, step Scenario.streaming ImageError = Some (w', a) ->
                      streamError (ui w')
                      = Some "Connection error. Retrying...").
Proof.
  split.
  - apply (proj1 (image_error_respects_warmup Scenario.restarted)).
    reflexivity.
  - apply (proj2 (image_error_respects_warmup Scenario.streaming));
      reflexivity.
Defined.

(** ** C10: the argument of [stopJob] *)

(** C10: whatever job id is passed, [stopJob] issues the same single
    request, a [POST] to [/jobs/stop] with no headers and no body, and
    settles the same way against the same backend; the component's call
    [stopJob(jobId)] therefore sends the same request for every job id.
    (The argument appears in the console line the function writes, and
    nowhere else.) *)
Theorem stopJob_ignores_job_id (A : Type) (j1 j2 : string)
    (fetch : Api.HttpRequest -> Api.Fetched A) :
  Api.issued (Api.stopJob j1 fetch) = Api.issued (Api.stopJob j2 fetch)
  /\ Api.settled (Api.stopJob j1 fetch) = Api.settled (Api.stopJob j2 fetch)
  /\ Api.issued (Api.stopJob j1 fetch) = [Api.stopJob_request]
  /\ Api.method Api.stopJob_request = "POST"
  /\ Api.url Api.stopJob_request = "http://192.168.1.56:8000/jobs/stop"
  /\ Api.headers Api.stopJob_request = []
  /\ Api.body Api.stopJob_request = None
  /\ request_of (stopJob j1) = request_of (stopJob j2)
  /\ Api.console (Api.stopJob j1 fetch) = ["[API] Stopping job: " ++ j1].
Proof. repeat split. Qed.

(** Against a backend that answers [500] with a message, [stopJob] throws
    that message behind its prefix. *)
Example stopJob_against_failing_backend :
  Api.settled (Api.stopJob "j42" Scenario.failing_backend)
  = Api.Threw "Failed to stop job: no job running".
Proof. reflexivity. Qed.

(** ** C7: the profiling poller *)

(** One round of the profiling poller while a job is active: the tick
    calls [getProfiling] for the job, and the settlement applies
    [loadProfiling_settled] to the state, the poller staying armed. *)
Lemma profiling_round_spec w o :
  job_active (ui w) = true -> profilingInterval w = true ->
  exists j w',
    jobId (ui w) = Some j
    /\ run w (profiling_round o) = Some (w', [Call (getProfiling j)])
    /\ ui w' = ui (loadProfiling_settled o w)
    /\ job_active (ui w') = true
    /\ profilingInterval w' = true.
Proof.
  unfold job_active. intros J P.
  destruct (jobId (ui w)) as [j|] eqn:Ej; [|discriminate].
  set (w1 := suspend PProfiling w).
  assert (S1 : step w ProfilingTick = Some (w1, [Call (getProfiling j)])).
  { unfold step, handle, loadProfiling. rewrite P, Ej, J. cbn [negb].
    now rewrite commit_same_deps by reflexivity. }
  destruct (take_enabled (Pending_eqb PProfiling) (suspended w1))
    as (q & r & T).
  { subst w1. cbn. rewrite existsb_app. cbn. apply orb_true_r. }
  set (w2 := loadProfiling_settled o (with_suspended r w1)).
  assert (D : jobId (ui w2) = jobId (ui w1)
              /\ selectedBoardId (ui w2) = selectedBoardId (ui w1)
              /\ countdown (ui w2) = countdown (ui w1)
              /\ ui w2 = ui (loadProfiling_settled o w)
              /\ profilingInterval w2 = true).
  { subst w2 w1. destruct o as [[d|]|e]; cbn; auto. }
  destruct D as (Dj & Db & Dc & Du & Dp).
  assert (S2 : step w1 (ProfilingSettled o) = Some (w2, [])).
  { unfold step, handle, resume. rewrite T. unfold quiet. fold w2.
    now rewrite commit_same_deps. }
  exists j, w2. split; [reflexivity|]. split.
  - unfold profiling_round, run. now rewrite S1, S2.
  - split; [exact Du|]. split; [|exact Dp].
    rewrite Dj. subst w1. cbn. now rewrite Ej.
Qed.

(** C7: while a job is active and the profiling poller is armed, a round
    whose fetch fails leaves the snapshot as it was, and a round that
    returns data replaces it by that data.  So over five rounds of which the
    third fails, the snapshot after the third is the data of the second, the
    snapshot after the fourth is the data of the fourth (and after the fifth
    that of the fifth). *)
Theorem profiling_survives_failed_tick w d1 d2 d4 d5 e3 :
  job_active (ui w) = true -> profilingInterval w = true ->
  (exists w' a, run w (profiling_round (Rejected e3)) = Some (w', a)
                /\ profiling (ui w') = profiling (ui w))
  /\ (exists w' a, run w (profiling_round (Resolved (Some d4))) = Some (w', a)
                   /\ profiling (ui w') = Some d4)
  /\ exists w1 a1 w2 a2 w3 a3 w4 a4 w5 a5,
       run w (profiling_round (Resolved (Some d1))) = Some (w1, a1)
       /\ profiling (ui w1) = Some d1
       /\ run w1 (profiling_round (Resolved (Some d2))) = Some (w2, a2)
       /\ profiling (ui w2) = Some d2
       /\ run w2 (profiling_round (Rejected e3)) = Some (w3, a3)
       /\ profiling (ui w3) = Some d2
       /\ run w3 (profiling_round (Resolved (Some d4))) = Some (w4, a4)
       /\ profiling (ui w4) = Some d4
       /\ run w4 (profiling_round (Resolved (Some d5))) = Some (w5, a5)
       /\ profiling (ui w5) = Some d5.
Proof.
  intros J P. split; [|split].
  - destruct (profiling_round_spec w (Rejected e3) J P)
      as (j & w' & _ & R & U & _).
    exists w', [Call (getProfiling j)]. now rewrite U.
  - destruct (profiling_round_spec w (Resolved (Some d4)) J P)
      as (j & w' & _ & R & U & _).
    exists w', [Call (getProfiling j)]. now rewrite U.
  - destruct (profiling_round_spec w (Resolved (Some d1)) J P)
      as (j1 & w1 & _ & R1 & U1 & J1 & P1).
    destruct (profiling_round_spec w1 (Resolved (Some d2)) J1 P1)
      as (j2 & w2 & _ & R2 & U2 & J2 & P2).
    destruct (profiling_round_spec w2 (Rejected e3) J2 P2)
      as (j3 & w3 & _ & R3 & U3 & J3 & P3).
    destruct (profiling_round_spec w3 (Resolved (Some d4)) J3 P3)
      as (j4 & w4 & _ & R4 & U4 & J4 & P4).
    destruct (profiling_round_spec w4 (Resolved (Some d5)) J4 P4)
      as (j5 & w5 & _ & R5 & U5 & _).
    exists w1, [Call (getProfiling j1)], w2, [Call (getProfiling j2)],
      w3, [Call (getProfiling j3)], w4, [Call (getProfiling j4)],
      w5, [Call (getProfiling j5)].
    rewrite U1, U2, U3, U4, U5. cbn. rewrite U2. cbn. auto 12.
Qed.

Lemma profiling_survives_failed_tick_witness :
  (exists w' a,
     run Scenario.running (profiling_round (Rejected "Failed to fetch"))
     = Some (w', a)
     /\ profiling (ui w') = profiling (ui Scenario.running))
  /\ (exists w' a,
        run Scenario.running
          (profiling_round
             (Resolved (Some (Scenario.sample 30 400 "12:00:02"))))
        = Some (w', a)
        /\ profiling (ui w') = Some (Scenario.sample 30 400 "12:00:02"))
  /\ exists w1 a1 w2 a2 w3 a3 w4 a4 w5 a5,
       run Scenario.running
         (profiling_round
            (Resolved (Some (Scenario.sample 29.5 100 "12:00:00"))))
       = Some (w1, a1)
       /\ profiling (ui w1) = Some (Scenario.sample 29.5 100 "12:00:00")
       /\ run w1 (profiling_round
                    (Resolved (Some (Scenario.sample 28 200 "12:00:01"))))
          = Some (w2, a2)
       /\ profiling (ui w2) = Some (Scenario.sample 28 200 "12:00:01")
       /\ run w2 (profiling_round (Rejected "Failed to fetch"))
          = Some (w3, a3)
       /\ profiling (ui w3) = Some (Scenario.sample 28 200 "12:00:01")
       /\ run w3 (profiling_round
                    (Resolved (Some (Scenario.sample 30 400 "12:00:02"))))
          = Some (w4, a4)
       /\ profiling (ui w4) = Some (Scenario.sample 30 400 "12:00:02")
       /\ run w4 (profiling_round
                    (Resolved (Some (Scenario.sample 31 500 "12:00:03"))))
          = Some (w5, a5)
       /\ profiling (ui w5) = Some (Scenario.sample 31 500 "12:00:03").
Proof.
  apply (profiling_survives_failed_tick Scenario.running
           (Scenario.sample 29.5 100 "12:00:00")
           (Scenario.sample 28 200 "12:00:01")
           (Scenario.sample 30 400 "12:00:02")
           (Scenario.sample 31 500 "12:00:03")
           "Failed to fetch"); reflexivity.
Defined.

(** ** C3: a stop that succeeds *)

Lemma effect_events_quiet prev w :
  job_active (ui w) = false -> snd (effect_events prev w) = [].
Proof.
  unfold job_active, effect_events. intros ->.
  now destruct (same_jobId _ _).
Qed.

Lemma effect_profiling_quiet prev w :
  job_active (ui w) = false -> snd (effect_profiling prev w) = [].
Proof.
  unfold job_active, effect_profiling. intros ->.
  now destruct (same_jobId _ _).
Qed.

Lemma effect_savedFrames_quiet prev w :
  job_active (ui w) = false -> snd (effect_savedFrames prev w) = [].
Proof.
  unfold job_active, effect_savedFrames. intros ->.
  now destruct (same_jobId _ _).
Qed.

Lemma effect_catalog_same_board prev w :
  selectedBoardId (ui w) = selectedBoardId prev ->
  effect_catalog prev w = (w, []).
Proof. unfold effect_catalog. intros ->. now rewrite String.eqb_refl. Qed.

Lemma effect_catalog_no_poller_call prev w :
  existsb is_poller_call (snd (effect_catalog prev w)) = false.
Proof. unfold effect_catalog. effect_cases; reflexivity. Qed.

(** With no job active in the state rendered, the effects call no
    poller. *)
Lemma commit_pollers_off prev w :
  job_active (ui w) = false ->
  existsb is_poller_call (snd (commit prev w)) = false
  /\ (selectedBoardId (ui w) = selectedBoardId prev ->
      snd (commit prev w) = []).
Proof.
  intros J. unfold commit.
  pose proof (effect_catalog_no_poller_call prev w) as Q1.
  pose proof (effect_catalog_same_board prev w) as B1.
  pose proof (effect_catalog_like prev w) as (F1 & _ & _).
  destruct (effect_catalog prev w) as [w1 a1].
  assert (J1 : job_active (ui w1) = false).
  { cbn [fst] in F1. unfold job_active.
    destruct F1 as (_ & _ & _ & -> & _). exact J. }
  pose proof (effect_events_quiet prev w1 J1) as Q2.
  pose proof (effect_events_like prev w1) as (F2 & _ & _).
  destruct (effect_events prev w1) as [w2 a2].
  assert (J2 : job_active (ui w2) = false).
  { cbn [fst] in F2. unfold job_active.
    destruct F2 as (_ & _ & _ & -> & _). exact J1. }
  pose proof (effect_profiling_quiet prev w2 J2) as Q3.
  pose proof (effect_profiling_like prev w2) as (F3 & _ & _).
  destruct (effect_profiling prev w2) as [w3 a3].
  assert (J3 : job_active (ui w3) = false).
  { cbn [fst] in F3. unfold job_active.
    destruct F3 as (_ & _ & _ & -> & _). exact J2. }
  pose proof (effect_savedFrames_quiet prev w3 J3) as Q4.
  destruct (effect_savedFrames prev w3) as [w4 a4].
  cbn [fst snd] in *. subst a2 a3 a4. rewrite !app_nil_r.
  split; [exact Q1|].
  intros B. specialize (B1 B). now inversion B1.
Qed.

(** A property of the world that every effect preserves is preserved by
    a render. *)
Lemma commit_preserves (P : World -> Prop) :
  (forall prev w, P w -> P (fst (effect_catalog prev w))) ->
  (forall prev w, P w -> P (fst (effect_events prev w))) ->
  (forall prev w, P w -> P (fst (effect_profiling prev w))) ->
  (forall prev w, P w -> P (fst (effect_savedFrames prev w))) ->
  (forall prev w, P w -> P (effect_countdown prev w)) ->
  forall prev w, P w -> P (fst (commit prev w)).
Proof.
  intros H1 H2 H3 H4 H5 prev w H. unfold commit.
  specialize (H1 prev w H). destruct (effect_catalog prev w) as [w1 a1].
  specialize (H2 prev w1 H1). destruct (effect_events prev w1) as [w2 a2].
  specialize (H3 prev w2 H2). destruct (effect_profiling prev w2) as [w3 a3].
  specialize (H4 prev w3 H3).
  destruct (effect_savedFrames prev w3) as [w4 a4]. cbn in *. auto.
Qed.

(** No effect fills the profiling snapshot or the saved-frames list. *)
Lemma commit_keeps_cleared prev w :
  slices_cleared w -> slices_cleared (fst (commit prev w)).
Proof.
  apply (commit_preserves slices_cleared);
    clear prev w; intros prev w [P S]; unfold slices_cleared.
  - unfold effect_catalog. effect_cases; auto.
  - unfold effect_events, loadEvents. effect_cases; auto.
  - unfold effect_profiling, loadProfiling. effect_cases; auto.
  - unfold effect_savedFrames, loadSavedFrames. effect_cases; auto.
  - unfold effect_countdown. effect_cases; auto.
Qed.

(** With no job active, a step that is not a successful start calls no
    poller and leaves no job active. *)
Lemma step_pollers_off w i w' a :
  timers_follow (ui w) w -> job_active (ui w) = false ->
  not_start_success i = true -> step w i = Some (w', a) ->
  existsb is_poller_call a = false /\ job_active (ui w') = false.
Proof.
  intros T J N S. apply step_inv in S as (w1 & a1 & H & -> & ->).
  destruct (handle_pollers_off _ _ _ _ H N J T) as [A1 J1].
  destruct (commit_pollers_off (ui w) w1 J1) as (A2 & _).
  destruct (commit_like (ui w) w1) as (F & _ & _).
  split.
  - now rewrite existsb_app, A1, A2.
  - unfold job_active. destruct F as (_ & _ & _ & -> & _). exact J1.
Qed.

Lemma pollers_off_of_timers w :
  timers_follow (ui w) w -> job_active (ui w) = false -> pollers_off w.
Proof. intros (E & P & S & _) J. unfold pollers_off. now rewrite E, P, S. Qed.

Lemma run_pollers_off w inputs w' a :
  timers_follow (ui w) w -> job_active (ui w) = false ->
  forallb not_start_success inputs = true ->
  run w inputs = Some (w', a) ->
  existsb is_poller_call a = false /\ pollers_off w'.
Proof.
  revert w a. induction inputs as [|i inputs IH]; cbn; intros w a T J N R.
  - inversion R; subst. split; [reflexivity|].
    now apply pollers_off_of_timers.
  - apply andb_prop in N as [Ni N].
    destruct (step w i) as [[w1 a1]|] eqn:S; [|discriminate].
    destruct (run w1 inputs) as [[w2 a2]|] eqn:R2; [|discriminate].
    inversion R; subst.
    destruct (step_pollers_off _ _ _ _ T J Ni S) as [A1 J1].
    destruct (IH _ _ (step_timers _ _ _ _ T S) J1 N R2) as [A2 O].
    split; [|exact O]. now rewrite existsb_app, A1, A2.
Qed.

(** C3: in any state the mounted component can reach, the step that
    handles a successful settlement of [stopJob] leaves the events list
    empty, the profiling snapshot [null] and the saved-frames list empty,
    no job id, the three poller intervals cleared, and asks for nothing;
    and from there on, as long as no start succeeds, nothing that happens
    makes the component call a poller endpoint, and the pollers stay off. *)
Theorem successful_stop_silences_pollers inputs w a w' a' :
  run initial inputs = Some (w, a) ->
  step w (StopSettled (Resolved tt)) = Some (w', a') ->
  events (ui w') = [] /\ profiling (ui w') = None
  /\ savedFrames (ui w') = [] /\ jobId (ui w') = None
  /\ eventsInterval w' = false /\ profilingInterval w' = false
  /\ savedFramesInterval w' = false
  /\ a' = []
  /\ forall later w'' a'',
       forallb not_start_success later = true ->
       run w' later = Some (w'', a'') ->
       existsb is_poller_call a'' = false /\ pollers_off w''.
Proof.
  intros R S.
  destruct (run_invariant _ _ _ _ initial_timers initial_no_settle_delay R)
    as (T & _ & _).
  pose proof (step_timers _ _ _ _ T S) as T'.
  apply step_inv in S as (w1 & a1 & H & E & ->).
  assert (H1 : job_active (ui w1) = false /\ slices_cleared w1
               /\ events (ui w1) = [] /\ jobId (ui w1) = None
               /\ selectedBoardId (ui w1) = selectedBoardId (ui w)
               /\ a1 = []).
  { unfold handle, resume in H.
    destruct (take (Pending_eqb PStop) (suspended w)) as [[q r]|];
      [|discriminate].
    inversion H; subst. cbn. repeat split. }
  destruct H1 as (J1 & C1 & E1 & Jn & B1 & ->).
  destruct (commit_pollers_off (ui w) w1 J1) as (_ & A).
  destruct (commit_like (ui w) w1) as (F & _ & _).
  pose proof (commit_keeps_cleared (ui w) w1 C1) as [Cp Cs].
  rewrite <- E in *.
  assert (J' : job_active (ui w') = false).
  { unfold job_active. destruct F as (_ & _ & _ & -> & _). exact J1. }
  destruct (pollers_off_of_timers _ T' J') as (_ & Oe & Op & Os).
  destruct F as (_ & _ & _ & Fj & _ & _ & _ & _ & _ & _ & Fe & _).
  rewrite Fe, Fj, (A B1).
  repeat split; auto; eapply run_pollers_off; eauto.
Qed.

Lemma successful_stop_silences_pollers_witness :
  events (ui Scenario.stopped) = []
  /\ profiling (ui Scenario.stopped) = None
  /\ savedFrames (ui Scenario.stopped) = []
  /\ jobId (ui Scenario.stopped) = None
  /\ eventsInterval Scenario.stopped = false
  /\ profilingInterval Scenario.stopped = false
  /\ savedFramesInterval Scenario.stopped = false
  /\ @nil Action = []
  /\ forall later w'' a'',
       forallb not_start_success later = true ->
       run Scenario.stopped later = Some (w'', a'') ->
       existsb is_poller_call a'' = false /\ pollers_off w''.
Proof.
  apply (successful_stop_silences_pollers Scenario.stop_requested
           Scenario.stopping
           [Call (getCameras "b1"); Call (getModels "b1");
            Call (startJob "b1" "c1" "m1"); SetTimeout 8000;
            Call (getRecentEvents 20); Call (getProfiling "j42");
            Call fetchSavedFrames; Call (stopJob "j42")]).
  - vm_compute. reflexivity.
  - vm_compute. reflexivity.
Defined.

(** ** C4: one-shot timers and stop *)

(** C4 does not hold of the warm-up timer: its handle is not kept and
    [onStop] does not cancel it.  Job [j42] is started and stopped before
    the 8000 ms have passed.  After the stop no job id and no stream address
    are set and the countdown interval is cleared, but the warm-up timer is
    still pending; when it elapses it assigns the stream address of the
    stopped job.  If another job was started meanwhile, that job shows the
    stream address of the stopped one. *)
Theorem warmup_timer_outlives_stop :
  run initial Scenario.stopped_then_warmup
  = Some (Scenario.after_stale_warmup,
          [Call (getCameras "b1"); Call (getModels "b1");
           Call (startJob "b1" "c1" "m1"); SetTimeout 8000;
           Call (getRecentEvents 20); Call (getProfiling "j42");
           Call fetchSavedFrames; Call (stopJob "j42")])
  /\ jobId (ui Scenario.stopped) = None
  /\ streamUrl (ui Scenario.stopped) = EmptyString
  /\ countdownInterval Scenario.stopped = false
  /\ no_settle_delay Scenario.stopped
  /\ waiting (PWarmup "http://192.168.1.56:8000/stream/j42")
       Scenario.stopped = true
  /\ step Scenario.stopped WarmupElapsed
     = Some (Scenario.after_stale_warmup, [])
  /\ jobId (ui Scenario.after_stale_warmup) = None
  /\ streamUrl (ui Scenario.after_stale_warmup)
     = "http://192.168.1.56:8000/stream/j42"
  /\ jobId (ui Scenario.restarted) = Some "j43"
  /\ streamUrl (ui Scenario.restarted)
     = "http://192.168.1.56:8000/stream/j42".
Proof. repeat split; vm_compute; reflexivity. Qed.

(** ** C5: changing the board *)

(** C5, as stated, fails: from the state with board [b1] loaded, choosing
    board [b2] issues the two fetches but leaves the lists of [b1] in
    place: the effect empties them only under [if (!selectedBoardId)]. *)
Lemma new_board_keeps_lists :
  step Scenario.ready (SelectBoard "b2")
  = Some (Scenario.board_changed,
          [Call (getCameras "b2"); Call (getModels "b2")])
  /\ selectedBoardId (ui Scenario.board_changed) = "b2"
  /\ cameras (ui Scenario.board_changed) = [Scenario.cam_c1]
  /\ cameras (ui Scenario.board_changed) <> []
  /\ models (ui Scenario.board_changed) = [Scenario.model_m1]
  /\ models (ui Scenario.board_changed) <> []
  /\ waiting PCatalog Scenario.board_changed = true.
Proof. repeat split; try discriminate; vm_compute; reflexivity. Qed.

Lemma commit_keeps_loading prev w :
  loadingModels (ui w) = true ->
  loadingModels (ui (fst (commit prev w))) = true.
Proof.
  apply (commit_preserves (fun w => loadingModels (ui w) = true));
    clear prev w; intros prev w H.
  - unfold effect_catalog. effect_cases; auto.
  - unfold effect_events, loadEvents. effect_cases; auto.
  - unfold effect_profiling, loadProfiling. effect_cases; auto.
  - unfold effect_savedFrames, loadSavedFrames. effect_cases; auto.
  - unfold effect_countdown. effect_cases; auto.
Qed.

(** Only the settlement of a cameras/models fetch lowers [loadingModels]. *)
Lemma run_keeps_loading w inputs w' a :
  loadingModels (ui w) = true ->
  forallb not_catalog_settled inputs = true ->
  run w inputs = Some (w', a) ->
  loadingModels (ui w') = true.
Proof.
  revert w a. induction inputs as [|i inputs IH]; cbn; intros w a L N R.
  - now inversion R; subst.
  - apply andb_prop in N as [Ni N].
    destruct (step w i) as [[w1 a1]|] eqn:S; [|discriminate].
    destruct (run w1 inputs) as [[w2 a2]|] eqn:R2; [|discriminate].
    inversion R; subst. apply (IH w1 a2); auto.
    apply step_inv in S as (w0 & a0 & H & -> & _).
    apply commit_keeps_loading.
    destruct i; try discriminate Ni; handle_cases H; cbn; auto.
Qed.

(** A render in which only the board has changed runs the cameras and
    models effect alone. *)
Lemma commit_board_only prev w :
  jobId (ui w) = jobId prev -> countdown (ui w) = countdown prev ->
  commit prev w = effect_catalog prev w.
Proof.
  intros J C. unfold commit.
  pose proof (effect_catalog_like prev w) as (F & _ & _).
  destruct (effect_catalog prev w) as [w1 a1]. cbn [fst] in F.
  destruct F as (_ & _ & _ & Fj & _ & _ & _ & _ & _ & Fc & _).
  unfold effect_events. rewrite Fj, J, same_jobId_refl.
  unfold effect_profiling. rewrite Fj, J, same_jobId_refl.
  unfold effect_savedFrames. rewrite Fj, J, same_jobId_refl.
  unfold effect_countdown. rewrite Fc, C, Z.eqb_refl.
  now rewrite !app_nil_r.
Qed.

(** C5 (amended): when the board selector is enabled and a different
    board is chosen, the camera selection and the model selection are
    cleared.  The camera list and the model list are emptied only when the
    choice is the empty one; for a board they keep their contents while the
    two fetches for that board are issued, they are replaced by the fetched
    lists when both have resolved, and they stay as they were when a fetch
    fails.  The model selector is disabled from the change until a
    cameras/models fetch settles.  (Nothing is stated here of the camera
    selector, whose [disabled] attribute lacks the [loadingModels] test of
    the model selector.) *)
Theorem board_change_resets_selection w v w' a :
  boardSelectDisabled (ui w) = false ->
  v <> selectedBoardId (ui w) ->
  step w (SelectBoard v) = Some (w', a) ->
  selectedBoardId (ui w') = v
  /\ selectedCameraId (ui w') = EmptyString
  /\ selectedModelId (ui w') = EmptyString
  /\ (truthy v = false ->
      cameras (ui w') = [] /\ models (ui w') = [] /\ a = [])
  /\ (truthy v = true ->
      cameras (ui w') = cameras (ui w) /\ models (ui w') = models (ui w)
      /\ a = [Call (getCameras v); Call (getModels v)]
      /\ waiting PCatalog w' = true
      /\ modelSelectDisabled (ui w') = true
      /\ (forall later w'' a'',
            forallb not_catalog_settled later = true ->
            run w' later = Some (w'', a'') ->
            modelSelectDisabled (ui w'') = true)
      /\ (forall c m, exists w'' a'',
            step w' (CatalogSettled (Resolved (c, m))) = Some (w'', a'')
            /\ cameras (ui w'') = c /\ models (ui w'') = m
            /\ loadingModels (ui w'') = false)
      /\ (forall e, exists w'' a'',
            step w' (CatalogSettled (Rejected e)) = Some (w'', a'')
            /\ cameras (ui w'') = cameras (ui w)
            /\ models (ui w'') = models (ui w)
            /\ loadingModels (ui w'') = false)).
Proof.
  intros D N S. pose proof D as D'. unfold boardSelectDisabled in D'.
  apply orb_false_iff in D' as [J B].
  unfold step, handle, quiet in S. rewrite D in S.
  rewrite commit_board_only in S by reflexivity.
  unfold effect_catalog in S. cbn in S.
  destruct (String.eqb_spec (selectedBoardId (ui w)) v) as [E|_];
    [congruence|].
  destruct (truthy v) eqn:Tv; cbn in S; inversion S; subst; clear S; cbn.
  - do 3 (split; [reflexivity|]). split; [discriminate|]. intros _.
    do 3 (split; [reflexivity|]).
    split; [|split; [|split; [|split]]].
    + unfold waiting. cbn. rewrite existsb_app. cbn. apply orb_true_r.
    + unfold modelSelectDisabled. cbn. apply orb_true_r.
    + intros later w'' a'' Nl R. unfold modelSelectDisabled.
      assert (L : loadingModels (ui w'') = true)
        by (eapply run_keeps_loading; [|exact Nl|exact R]; reflexivity).
      rewrite L. apply orb_true_r.
    + intros c m.
      match goal with |- context [step ?x _] => set (w1 := x) end.
      destruct (take_enabled (Pending_eqb PCatalog) (suspended w1))
        as (q & r & T).
      { subst w1. cbn. rewrite existsb_app. cbn. apply orb_true_r. }
      unfold step, handle, resume. rewrite T. unfold quiet.
      rewrite commit_same_deps by reflexivity. do 2 eexists.
      split; [reflexivity|]. cbn. auto.
    + intros e.
      match goal with |- context [step ?x _] => set (w1 := x) end.
      destruct (take_enabled (Pending_eqb PCatalog) (suspended w1))
        as (q & r & T).
      { subst w1. cbn. rewrite existsb_app. cbn. apply orb_true_r. }
      unfold step, handle, resume. rewrite T. unfold quiet.
      rewrite commit_same_deps by reflexivity. do 2 eexists.
      split; [reflexivity|]. cbn. auto.
  - do 3 (split; [reflexivity|]). split; [|discriminate].
    intros _. repeat split.
Qed.

Lemma board_change_resets_selection_witness :
  selectedBoardId (ui Scenario.board_changed) = "b2"
  /\ selectedCameraId (ui Scenario.board_changed) = EmptyString
  /\ selectedModelId (ui Scenario.board_changed) = EmptyString
  /\ (truthy "b2" = false ->
      cameras (ui Scenario.board_changed) = []
      /\ models (ui Scenario.board_changed) = []
      /\ [Call (getCameras "b2"); Call (getModels "b2")] = [])
  /\ (truthy "b2" = true ->
      cameras (ui Scenario.board_changed) = cameras (ui Scenario.ready)
      /\ models (ui Scenario.board_changed) = models (ui Scenario.ready)
      /\ [Call (getCameras "b2"); Call (getModels "b2")]
         = [Call (getCameras "b2"); Call (getModels "b2")]
      /\ waiting PCatalog Scenario.board_changed = true
      /\ modelSelectDisabled (ui Scenario.board_changed) = true
      /\ (forall later w'' a'',
            forallb not_catalog_settled later = true ->
            run Scenario.board_changed later = Some (w'', a'') ->
            modelSelectDisabled (ui w'') = true)
      /\ (forall c m, exists w'' a'',
            step Scenario.board_changed (CatalogSettled (Resolved (c, m)))
            = Some (w'', a'')
            /\ cameras (ui w'') = c /\ models (ui w'') = m
            /\ loadingModels (ui w'') = false)
      /\ (forall e, exists w'' a'',
            step Scenario.board_changed (CatalogSettled (Rejected e))
            = Some (w'', a'')
            /\ cameras (ui w'') = cameras (ui Scenario.ready)
            /\ models (ui w'') = models (ui Scenario.ready)
            /\ loadingModels (ui w'') = false)).
Proof.
  apply (board_change_resets_selection Scenario.ready "b2"
           Scenario.board_changed
           [Call (getCameras "b2"); Call (getModels "b2")]).
  - reflexivity.
  - discriminate.
  - vm_compute. reflexivity.
Defined.

(** The camera selector is not held back while the fetches are in flight,
    as the model selector is: [disabled] of the camera select has no
    [loadingModels] test.  A slip: with board [b2] chosen, camera [c1] of
    board [b1] can still be picked, and when [b2] turns out to have no
    camera the job is started on [b2] with [c1]. *)
Example stale_camera_reaches_startJob :
  cameraSelectDisabled (ui Scenario.board_changed) = false
  /\ modelSelectDisabled (ui Scenario.board_changed) = true
  /\ exists w,
       run Scenario.board_changed
         [SelectCamera "c1";
          CatalogSettled (Resolved ([], [Scenario.model_m1]));
          SelectModel "m1"; ClickStart]
       = Some (w, [Call (startJob "b2" "c1" "m1")])
       /\ cameras (ui w) = [].
Proof.
  split; [reflexivity|]. split; [reflexivity|].
  eexists. split; vm_compute; reflexivity.
Qed.

(** * More of [src/api.ts] *)

Lemma prefix_append (p s : string) : String.prefix p (p ++ s) = true.
Proof.
  induction p as [|c p IH]; cbn.
  - now destruct s.
  - destruct (Ascii.ascii_dec c c); [exact IH|contradiction].
Qed.

Ltac api_cases f :=
  destruct f; cbn in *;
  unfold Api.getBoards, Api.getCameras, Api.getModels, Api.startJob,
    Api.pauseVideo, Api.resumeVideo, Api.getRecentEvents, Api.getEventById,
    Api.getProfiling, Api.getHealth in *; cbn in *.

(** X1: a function of [api.ts] returns a value exactly when [fetch]
    resolves to a response that is [ok] and whose body parses, and the
    value is that body; when [fetch] itself rejects, the function rejects
    with the same message, without any text of its own. *)
Theorem api_returns_iff (A : Type) (f : Api.Function)
    (fetch : Api.HttpRequest -> Api.Fetched A) :
  (forall a, Api.invoke f fetch = Api.Returned a <->
             exists r, fetch (Api.request f) = Api.Responded r
                       /\ Api.ok r = true /\ Api.json r = Some a)
  /\ (forall m, fetch (Api.request f) = Api.NetworkError m ->
                Api.invoke f fetch = Api.Threw m).
Proof.
  split.
  - intros a. split.
    + intros H.
      assert (K : exists r, fetch (Api.request f) = Api.Responded r
                            /\ (Api.check_plain (Api.failure_text f) r
                                = Api.Returned a
                                \/ Api.check_with_message
                                     (Api.failure_text f) r
                                   = Api.Returned a)).
      { api_cases f;
          match type of H with
          | Api.after_fetch (fetch ?q) _ = _ =>
              destruct (fetch q) as [m|r]; cbn in H;
              [discriminate|exists r; auto]
          end. }
      destruct K as (r & E & K). exists r. split; [exact E|].
      unfold Api.check_plain, Api.check_with_message, Api.return_json in K.
      destruct (Api.ok r), (Api.json r), (Api.null_error r); cbn in K;
        destruct K as [K|K]; inversion K; auto.
    + intros (r & E & O & J).
      api_cases f; rewrite E; cbn;
        unfold Api.check_plain, Api.check_with_message, Api.return_json;
        now rewrite O, J.
  - intros m E. api_cases f; now rewrite E.
Qed.



Lemma api_returns_iff_witness :
  (forall a, Api.invoke (Api.F_getProfiling "j42") Scenario.offline
             = Api.Returned a <->
             exists r, Scenario.offline (Api.request (Api.F_getProfiling "j42"))
                       = Api.Responded r
                       /\ Api.ok r = true /\ Api.json r = Some a)
  /\ Api.invoke (Api.F_getProfiling "j42") Scenario.offline
     = Api.Threw "Failed to fetch".
Proof.
  split.
  - apply (api_returns_iff unit (Api.F_getProfiling "j42") Scenario.offline).
  - apply (proj2 (api_returns_iff unit (Api.F_getProfiling "j42")
                    Scenario.offline)).
    reflexivity.
Defined.

(** X3: when the body of such a response cannot be read, a job or video
    control throws the error met while reading it: the error [r.json()]
    rejects with when the body does not parse (an HTML error page of a
    proxy, say), the [TypeError] of [errorBody.message] when the body is
    [null].  Neither its own prefix nor the status text reaches the
    caller. *)
Theorem control_failure_unparsable_body (A : Type) (f : Api.Function)
    (fetch : Api.HttpRequest -> Api.Fetched A) (r : Api.Response A) :
  Api.is_control_function f = true ->
  fetch (Api.request f) = Api.Responded r ->
  Api.ok r = false ->
  (Api.json r = None -> Api.invoke f fetch = Api.Threw (Api.json_error r))
  /\ (forall errorBody e,
        Api.json r = Some errorBody -> Api.null_error r = Some e ->
        Api.invoke f fetch = Api.Threw e).
Proof.
  intros C E O. split.
  - intros J.
    api_cases f; try discriminate C; rewrite E; cbn;
      unfold Api.check_with_message; now rewrite O, J.
  - intros errorBody e J N.
    api_cases f; try discriminate C; rewrite E; cbn;
      unfold Api.check_with_message; now rewrite O, J, N.
Qed.

Lemma control_failure_unparsable_body_witness :
  Api.invoke (Api.F_startJob "b1" "c1" "m1") Scenario.bad_gateway
  = Api.Threw "Unexpected token < in JSON at position 0"
  /\ Api.invoke (Api.F_stopJob "j42") Scenario.null_answer
     = Api.Threw "Cannot read properties of null (reading 'message')".
Proof.
  split.
  - apply (proj1 (control_failure_unparsable_body unit
                    (Api.F_startJob "b1" "c1" "m1") Scenario.bad_gateway
                    {| Api.ok := false; Api.statusText := "Bad Gateway";
                       Api.json := None;
                       Api.json_error
                         := "Unexpected token < in JSON at position 0";
                       Api.null_error := None; Api.message := None |}
                    eq_refl eq_refl eq_refl)).
    reflexivity.
  - apply (proj2 (control_failure_unparsable_body unit
                    (Api.F_stopJob "j42") Scenario.null_answer
                    {| Api.ok := false;
                       Api.statusText := "Internal Server Error";
                       Api.json := Some tt; Api.json_error := EmptyString;
                       Api.null_error
                         := Some "Cannot read properties of null (reading 'message')";
                       Api.message := None |}
                    eq_refl eq_refl eq_refl) tt);
      reflexivity.
Defined.

(** X4: a read ([getBoards], [getCameras], [getModels], [getRecentEvents],
    [getEventById], [getProfiling], [getHealth]) answered with a response
    that is not [ok] throws its fixed message: the status text and the body
    of the response, parsable or not, are not looked at. *)
Theorem read_failure_fixed_message (A : Type) (f : Api.Function)
    (fetch : Api.HttpRequest -> Api.Fetched A) (r : Api.Response A) :
  Api.is_control_function f = false ->
  fetch (Api.request f) = Api.Responded r ->
  Api.ok r = false ->
  Api.invoke f fetch = Api.Threw (Api.failure_text f).
Proof.
  intros C E O.
  api_cases f; try discriminate C; rewrite E; cbn;
    unfold Api.check_plain; now rewrite O.
Qed.

Lemma read_failure_fixed_message_witness :
  Api.invoke (Api.F_getCameras "b1") Scenario.failing_backend
  = Api.Threw "Failed to fetch cameras".
Proof.
  apply (read_failure_fixed_message unit (Api.F_getCameras "b1")
           Scenario.failing_backend
           {| Api.ok := false; Api.statusText := "Internal Server Error";
              Api.json := Some tt; Api.json_error := EmptyString;
              Api.null_error := None;
              Api.message := Some "no job running" |});
    reflexivity.
Defined.

(** X5: every function of [api.ts] sends its request to the configured
    backend; the reads use [GET] without headers or body, the controls use
    [POST]; a request has a body exactly when it announces JSON content,
    and of the controls only [stopJob] sends none. *)
Theorem request_shapes (f : Api.Function) :
  Api.starts_with Api.BACKEND (Api.url (Api.request f)) = true
  /\ Api.method (Api.request f)
     = (if Api.is_control_function f then "POST" else "GET")
  /\ (Api.body (Api.request f) <> None <->
      Api.headers (Api.request f) = [("Content-Type", "application/json")])
  /\ (Api.body (Api.request f) = None <->
      Api.headers (Api.request f) = [])
  /\ (Api.body (Api.request f) = None <->
      Api.is_control_function f = false \/ exists j, f = Api.F_stopJob j).
Proof.
  unfold Api.starts_with.
  destruct f; cbn -[Api.BACKEND String.prefix];
    (split; [apply prefix_append|]); (split; [reflexivity|]);
    repeat split; intros; try discriminate; try congruence; eauto;
    match goal with
    | H : _ \/ _ |- _ => destruct H as [H|[j H]]; discriminate
    end.
Qed.

(** * More of [src/App.tsx]: invariants of the component *)

Lemma Pending_eqb_eq p q : Pending_eqb p q = true -> p = q.
Proof.
  destruct p, q; cbn; try discriminate; auto; intros H;
    repeat (apply andb_prop in H; destruct H as [H ?]);
    repeat match goal with
           | E : String.eqb _ _ = true |- _ => apply String.eqb_eq in E; subst
           end; reflexivity.
Qed.

Lemma take_split f l q r :
  take f l = Some (q, r) ->
  f q = true /\ exists l1 l2, l = (l1 ++ q :: l2)%list /\ r = (l1 ++ l2)%list.
Proof.
  revert r. induction l as [|x l IH]; cbn; intros r H; [discriminate|].
  destruct (f x) eqn:Fx.
  - inversion H; subst. split; [exact Fx|]. now exists [], r.
  - destruct (take f l) as [[q' r']|]; [|discriminate].
    inversion H; subst. destruct (IH _ eq_refl) as (Fq & l1 & l2 & -> & ->).
    split; [exact Fq|]. now exists (x :: l1), l2.
Qed.

(** With at most one control request in flight, the one a settlement
    resumes is that one, and none is left. *)
Lemma take_control p l q r :
  take (Pending_eqb p) l = Some (q, r) -> is_control p = true ->
  (List.length (filter is_control l) <= 1)%nat ->
  filter is_control l = [p] /\ filter is_control r = [].
Proof.
  intros T C L. apply take_split in T as (E & l1 & l2 & -> & ->).
  apply Pending_eqb_eq in E. subst q.
  rewrite !filter_app in *. cbn in *. rewrite C in *.
  rewrite length_app in L. cbn in L.
  destruct (filter is_control l1); [|cbn in L; lia].
  destruct (filter is_control l2); [|cbn in L; lia].
  auto.
Qed.

Lemma take_other f l q r :
  take f l = Some (q, r) -> is_control q = false ->
  filter is_control r = filter is_control l.
Proof.
  intros T C. apply take_split in T as (_ & l1 & l2 & -> & ->).
  rewrite !filter_app. cbn. now rewrite C.
Qed.

Lemma lifecycle_ok_length s fl :
  lifecycle_ok s fl = true -> (List.length fl <= 1)%nat.
Proof.
  destruct fl as [|p [|q fl]]; cbn; auto.
  destruct p; discriminate.
Qed.

(** Rewrites what is in flight after a continuation was taken. *)
Ltac use_takes L :=
  repeat match goal with
  | T : take (Pending_eqb ?p) _ = Some (_, _) |- _ =>
      first [ let E := fresh "E" in
              let R := fresh "R" in
              destruct (take_control _ _ _ _ T eq_refl L) as [E R];
              rewrite ?E, ?R in *; clear T
            | let R := fresh "R" in
              pose proof T as R; apply take_split in R; destruct R as [R _];
              apply Pending_eqb_eq in R; subst;
              rewrite ?(take_other _ _ _ _ T eq_refl) in *; clear T ]
  | T : take _ _ = Some (_, _) |- _ =>
      rewrite ?(take_other _ _ _ _ T eq_refl) in *; clear T
  end.

(** Case analysis on the flags of the state, pruning a branch as soon as a
    hypothesis of the goal has become absurd. *)
Ltac flags :=
  cbn;
  first
    [ solve [intros; discriminate]
    | match goal with
      | |- context [busy ?x] => destruct (busy x); flags
      | |- context [truthy_opt ?x] => destruct (truthy_opt x); flags
      | |- context [truthy ?x] => destruct (truthy x); flags
      | |- context [imageLoaded ?x] => destruct (imageLoaded x); flags
      | |- context [isPaused ?x] => destruct (isPaused x); flags
      | |- context [isVideoMinimized ?x] =>
          destruct (isVideoMinimized x); flags
      | |- context [isVideoFullscreen ?x] =>
          destruct (isVideoFullscreen x); flags
      end
    | idtac ].

Ltac lifecycle_shapes :=
  try match goal with
      | L : lifecycle_ok _ (filter is_control ?l) = true |- _ =>
          let fl := fresh "fl" in
          let Efl := fresh "Efl" in
          remember (filter is_control l) as fl eqn:Efl; clear Efl;
          destruct fl as [|[] [|]]; cbn in L; try discriminate L
      end.

Ltac lifecycle_crush :=
  lifecycle_shapes;
  unfold lifecycle_ok, idle_flags_ok, selection_ok, job_active, canStart,
    canStop, canPause, boardSelectDisabled, modelSelectDisabled,
    cameraSelectDisabled, streamImageMounted in *;
  cbn -[Z.max Z.le] in *;
  repeat match goal with
         | H : @eq bool _ _ |- _ => revert H
         end;
  flags; intros; repeat split; try reflexivity; try lia.

(** Every handler keeps the lifecycle invariant. *)
Lemma handle_core i w w1 a1 :
  handle i w = Some (w1, a1) -> no_settle_delay w ->
  core_ok (ui w) (in_flight w) -> core_ok (ui w1) (in_flight w1).
Proof.
  unfold core_ok, in_flight. intros H N (L & I & S & C).
  pose proof (lifecycle_ok_length _ _ L) as Len.
  destruct i; handle_cases H;
    cbn [ui suspended upd suspend with_ui with_suspended] in *;
    cbn -[Z.max] in *; rewrite ?filter_app in *;
    cbn [filter is_control app] in *;
    try match goal with
        | T : take is_settle_delay _ = Some _ |- _ =>
            apply take_found in T; destruct T as [_ T];
            unfold no_settle_delay in N; congruence
        end;
    use_takes Len; rewrite ?app_nil_r in *;
    try (split; [assumption|split; [assumption|split; assumption]]);
    clear Len; solve [lifecycle_crush].
Qed.

Lemma spawned_not_control (l : list Pending) :
  forallb spawned_by_effect l = true -> filter is_control l = [].
Proof.
  induction l as [|x l IH]; cbn; [easy|].
  intros H. apply andb_prop in H as [Hx Hl]. rewrite (IH Hl).
  destruct x; cbn in *; try discriminate; reflexivity.
Qed.

(** The effects write none of the fields the invariant reads and start no
    control request. *)
Lemma commit_core prev w :
  core_ok (ui w) (in_flight w) ->
  core_ok (ui (fst (commit prev w))) (in_flight (fst (commit prev w))).
Proof.
  destruct (commit_like prev w) as (F & (l & E & Sp) & _).
  unfold in_flight. rewrite E, filter_app, (spawned_not_control _ Sp),
    app_nil_r.
  unfold core_ok, lifecycle_ok, idle_flags_ok, selection_ok, job_active.
  destruct F as (-> & -> & -> & -> & _ & -> & -> & -> & _ & -> & _ & _
                 & -> & _).
  auto.
Qed.

Lemma step_coherent w i w' a :
  coherent w -> step w i = Some (w', a) -> coherent w'.
Proof.
  intros (T & N & K) S.
  split; [exact (step_timers _ _ _ _ T S)|].
  split; [exact (proj1 (step_no_settle_delay _ _ _ _ N S))|].
  apply step_inv in S as (w1 & a1 & H & -> & _).
  apply (commit_core (ui w) w1). now apply (handle_core i w w1 a1).
Qed.

Lemma initial_coherent : coherent initial.
Proof.
  split; [exact initial_timers|]. split; [exact initial_no_settle_delay|].
  repeat split; cbn; lia.
Qed.

(** Every state the mounted component reaches is coherent. *)
Lemma run_coherent w inputs w' a :
  coherent w -> run w inputs = Some (w', a) -> coherent w'.
Proof.
  revert w a. induction inputs as [|i inputs IH]; cbn; intros w a K R.
  - now inversion R; subst.
  - destruct (step w i) as [[w1 a1]|] eqn:S; [|discriminate].
    destruct (run w1 inputs) as [[w2 a2]|] eqn:R2; [|discriminate].
    inversion R; subst. eapply IH; [|exact R2]. eapply step_coherent; eauto.
Qed.

Example running_reached :
  run initial Scenario.start_j42
  = Some (Scenario.running, Scenario.running_asked).
Proof. vm_compute. reflexivity. Qed.

Example starting_reached :
  run initial Scenario.start_requested
  = Some (Scenario.starting, Scenario.starting_asked).
Proof. vm_compute. reflexivity. Qed.

Lemma reached_coherent inputs w a :
  run initial inputs = Some (w, a) -> coherent w.
Proof. apply run_coherent, initial_coherent. Qed.

Lemma step_enabled_iff i w :
  (exists w' a, step w i = Some (w', a)) <-> handle i w <> None.
Proof.
  unfold step. destruct (handle i w) as [[w1 a1]|]; split.
  - discriminate.
  - intros _. destruct (commit (ui w) w1) as [w2 a2]. eauto.
  - intros (w' & a & H). discriminate.
  - congruence.
Qed.

(** X7: in every state the mounted component reaches, each of the three
    poller intervals is armed exactly when a job is active ([jobId]
    truthy); so a poller tick can fire exactly then. *)
Theorem pollers_armed_iff_job_active inputs w a :
  run initial inputs = Some (w, a) ->
  eventsInterval w = job_active (ui w)
  /\ profilingInterval w = job_active (ui w)
  /\ savedFramesInterval w = job_active (ui w)
  /\ ((exists w' a', step w EventsTick = Some (w', a'))
      <-> job_active (ui w) = true)
  /\ ((exists w' a', step w ProfilingTick = Some (w', a'))
      <-> job_active (ui w) = true)
  /\ ((exists w' a', step w SavedFramesTick = Some (w', a'))
      <-> job_active (ui w) = true).
Proof.
  intros R. destruct (reached_coherent _ _ _ R) as ((E & P & S & _) & _).
  rewrite !step_enabled_iff. unfold handle. rewrite E, P, S.
  repeat split; auto; destruct (job_active (ui w)); congruence.
Qed.

Lemma pollers_armed_iff_job_active_witness :
  eventsInterval Scenario.running = job_active (ui Scenario.running)
  /\ profilingInterval Scenario.running = job_active (ui Scenario.running)
  /\ savedFramesInterval Scenario.running = job_active (ui Scenario.running)
  /\ ((exists w' a', step Scenario.running EventsTick = Some (w', a'))
      <-> job_active (ui Scenario.running) = true)
  /\ ((exists w' a', step Scenario.running ProfilingTick = Some (w', a'))
      <-> job_active (ui Scenario.running) = true)
  /\ ((exists w' a', step Scenario.running SavedFramesTick = Some (w', a'))
      <-> job_active (ui Scenario.running) = true).
Proof.
  apply (pollers_armed_iff_job_active Scenario.start_j42 Scenario.running
           Scenario.running_asked).
  vm_compute. reflexivity.
Defined.

(** A render in which neither the board nor the job id has changed runs
    the countdown effect alone, and asks for nothing. *)
Lemma commit_same_job prev w :
  selectedBoardId (ui w) = selectedBoardId prev ->
  jobId (ui w) = jobId prev ->
  commit prev w = (effect_countdown prev w, []).
Proof.
  intros B J. unfold commit.
  rewrite (effect_catalog_same_board prev w B).
  unfold effect_events. rewrite J, same_jobId_refl.
  unfold effect_profiling. rewrite J, same_jobId_refl.
  unfold effect_savedFrames. now rewrite J, same_jobId_refl.
Qed.

(** X8: in every state the mounted component reaches, the countdown is
    between 0 and 8; its interval is armed, and so can tick, exactly while
    it is above 0; and a tick takes exactly one off and asks for
    nothing. *)
Theorem countdown_counts_down inputs w a :
  run initial inputs = Some (w, a) ->
  0 <= countdown (ui w) <= 8
  /\ countdownInterval w = Z.ltb 0 (countdown (ui w))
  /\ ((exists w' a', step w CountdownTick = Some (w', a'))
      <-> 0 < countdown (ui w))
  /\ forall w' a', step w CountdownTick = Some (w', a') ->
                   countdown (ui w') = countdown (ui w) - 1 /\ a' = [].
Proof.
  intros R.
  destruct (reached_coherent _ _ _ R)
    as ((_ & _ & _ & T) & _ & _ & _ & _ & C).
  split; [exact C|]. split; [exact T|]. split.
  - rewrite step_enabled_iff. unfold handle. rewrite T.
    destruct (Z.ltb_spec 0 (countdown (ui w))); split; intros; try lia;
      congruence.
  - intros w' a' S. unfold step, handle in S. rewrite T in S.
    destruct (Z.ltb_spec 0 (countdown (ui w))); [|discriminate].
    unfold quiet in S. rewrite commit_same_job in S by reflexivity.
    inversion S; subst. split; [|reflexivity].
    destruct (effect_countdown_like (ui w) (countdown_tick w)) as (F & _).
    destruct F as (_ & _ & _ & _ & _ & _ & _ & _ & _ & -> & _).
    unfold countdown_tick, upd. cbn -[Z.max]. lia.
Qed.

Lemma countdown_counts_down_witness :
  0 <= countdown (ui Scenario.running) <= 8
  /\ countdownInterval Scenario.running
     = Z.ltb 0 (countdown (ui Scenario.running))
  /\ ((exists w' a', step Scenario.running CountdownTick = Some (w', a'))
      <-> 0 < countdown (ui Scenario.running))
  /\ forall w' a', step Scenario.running CountdownTick = Some (w', a') ->
                   countdown (ui w') = countdown (ui Scenario.running) - 1
                   /\ a' = [].
Proof.
  apply (countdown_counts_down Scenario.start_j42 Scenario.running
           Scenario.running_asked).
  vm_compute. reflexivity.
Defined.

Example stopped_reached :
  run initial Scenario.stop_settled
  = Some (Scenario.stopped, Scenario.stopped_asked).
Proof. vm_compute. reflexivity. Qed.

Lemma busy_blocks_clicks w :
  busy (ui w) = true ->
  step w ClickStart = Some (w, []) /\ step w ClickStop = Some (w, [])
  /\ step w ClickPause = Some (w, [])
  /\ forall v, step w (SelectBoard v) = Some (w, [])
               /\ step w (SelectCamera v) = Some (w, [])
               /\ step w (SelectModel v) = Some (w, []).
Proof.
  intros B.
  assert (C1 : canStart (ui w) = false)
    by (unfold canStart; rewrite B; cbn; now rewrite !andb_false_r).
  assert (C2 : canStop (ui w) = false)
    by (unfold canStop; rewrite B; cbn; now rewrite !andb_false_r).
  assert (D1 : boardSelectDisabled (ui w) = true)
    by (unfold boardSelectDisabled; rewrite B; apply orb_true_r).
  assert (D2 : cameraSelectDisabled (ui w) = true)
    by (unfold cameraSelectDisabled; rewrite B;
        now rewrite orb_true_r).
  assert (D3 : modelSelectDisabled (ui w) = true)
    by (unfold modelSelectDisabled; rewrite B;
        now rewrite orb_true_r).
  assert (C3 : canPause (ui w) = false)
    by (unfold canPause; rewrite B; cbn; now rewrite !andb_false_r).
  repeat split; intros; unfold step, handle, quiet;
    rewrite ?C1, ?C2, ?C3, ?D1, ?D2, ?D3; now rewrite commit_unchanged.
Qed.

(** X9: in every state the mounted component reaches, [busy] says exactly
    whether a job or video control request is in flight, and there is never
    more than one: none when [busy] is false; when it is true either one
    [startJob] with no job active, or, with a job active, one [stopJob],
    [pauseVideo] or [resumeVideo].  While it is true the three buttons and
    the three selectors do nothing. *)
Theorem one_control_request_in_flight inputs w a :
  run initial inputs = Some (w, a) ->
  (busy (ui w) = false -> in_flight w = [])
  /\ (busy (ui w) = true ->
      ((in_flight w = [PStart] /\ job_active (ui w) = false)
       \/ (job_active (ui w) = true
           /\ (in_flight w = [PStop] \/ in_flight w = [PPause]
               \/ in_flight w = [PResume])))
      /\ step w ClickStart = Some (w, [])
      /\ step w ClickStop = Some (w, [])
      /\ step w ClickPause = Some (w, [])
      /\ forall v, step w (SelectBoard v) = Some (w, [])
                   /\ step w (SelectCamera v) = Some (w, [])
                   /\ step w (SelectModel v) = Some (w, [])).
Proof.
  intros R. destruct (reached_coherent _ _ _ R) as (_ & _ & L & _).
  split.
  - intros B. unfold lifecycle_ok in L. rewrite B in L.
    destruct (in_flight w) as [|[] [|]]; try discriminate; reflexivity.
  - intros B. split; [|now apply busy_blocks_clicks].
    unfold lifecycle_ok in L. rewrite B in L.
    destruct (in_flight w) as [|[] [|]]; try discriminate L; cbn in L;
      destruct (job_active (ui w)); try discriminate L; auto 6.
Qed.

Lemma one_control_request_in_flight_witness :
  ((in_flight Scenario.starting = [PStart]
    /\ job_active (ui Scenario.starting) = false)
   \/ (job_active (ui Scenario.starting) = true
       /\ (in_flight Scenario.starting = [PStop]
           \/ in_flight Scenario.starting = [PPause]
           \/ in_flight Scenario.starting = [PResume])))
  /\ step Scenario.starting ClickStart = Some (Scenario.starting, [])
  /\ step Scenario.starting ClickStop = Some (Scenario.starting, [])
  /\ step Scenario.starting ClickPause = Some (Scenario.starting, [])
  /\ forall v, step Scenario.starting (SelectBoard v)
               = Some (Scenario.starting, [])
               /\ step Scenario.starting (SelectCamera v)
                  = Some (Scenario.starting, [])
               /\ step Scenario.starting (SelectModel v)
                  = Some (Scenario.starting, []).
Proof.
  apply (proj2 (one_control_request_in_flight Scenario.start_requested
                  Scenario.starting Scenario.starting_asked
                  starting_reached)).
  reflexivity.
Defined.

(** X10: in every state the mounted component reaches, when no job is
    active the stream is not shown as loaded, not paused and not minimized,
    and the stream image is not in the tree. *)
Theorem stream_flags_down_without_job inputs w a :
  run initial inputs = Some (w, a) ->
  job_active (ui w) = false ->
  imageLoaded (ui w) = false /\ isPaused (ui w) = false
  /\ isVideoMinimized (ui w) = false
  /\ streamImageMounted (ui w) = false.
Proof.
  intros R J. destruct (reached_coherent _ _ _ R) as (_ & _ & _ & I & _).
  unfold idle_flags_ok, streamImageMounted, job_active in *.
  rewrite J in *. cbn in *.
  destruct (imageLoaded (ui w)), (isPaused (ui w)),
    (isVideoMinimized (ui w)); try discriminate I; auto.
Qed.

Lemma stream_flags_down_without_job_witness :
  imageLoaded (ui Scenario.stopped) = false
  /\ isPaused (ui Scenario.stopped) = false
  /\ isVideoMinimized (ui Scenario.stopped) = false
  /\ streamImageMounted (ui Scenario.stopped) = false.
Proof.
  apply (stream_flags_down_without_job Scenario.stop_settled
           Scenario.stopped Scenario.stopped_asked).
  - vm_compute. reflexivity.
  - reflexivity.
Defined.

Lemma truthy_false (s : string) : truthy s = false <-> s = EmptyString.
Proof.
  unfold truthy. rewrite negb_false_iff. apply String.eqb_eq.
Qed.

(** X11: in every state the mounted component reaches, without a board
    selected no camera and no model is selected; and while a job is active
    or its start request is in flight, board, camera and model are all
    selected. *)
Theorem selections_follow_board inputs w a :
  run initial inputs = Some (w, a) ->
  (selectedBoardId (ui w) = EmptyString ->
   selectedCameraId (ui w) = EmptyString
   /\ selectedModelId (ui w) = EmptyString)
  /\ (job_active (ui w) = true \/ in_flight w = [PStart] ->
      truthy (selectedBoardId (ui w)) = true
      /\ truthy (selectedCameraId (ui w)) = true
      /\ truthy (selectedModelId (ui w)) = true).
Proof.
  intros R. destruct (reached_coherent _ _ _ R) as (_ & _ & _ & _ & S & _).
  unfold selection_ok in S. apply andb_prop in S as [S1 S2]. split.
  - intros B. apply truthy_false in B. rewrite B in S1. cbn in S1.
    apply negb_true_iff, orb_false_iff in S1 as [C M].
    now apply truthy_false in C, M.
  - intros H.
    assert (P : job_active (ui w)
                || existsb (Pending_eqb PStart) (in_flight w) = true).
    { destruct H as [-> | ->]; [reflexivity|apply orb_true_r]. }
    rewrite P in S2. cbn in S2.
    apply andb_prop in S2 as [S2 M]. apply andb_prop in S2 as [B C]. auto.
Qed.

Lemma selections_follow_board_witness :
  (selectedBoardId (ui initial) = EmptyString ->
   selectedCameraId (ui initial) = EmptyString
   /\ selectedModelId (ui initial) = EmptyString)
  /\ truthy (selectedBoardId (ui Scenario.running)) = true
  /\ truthy (selectedCameraId (ui Scenario.running)) = true
  /\ truthy (selectedModelId (ui Scenario.running)) = true.
Proof.
  split.
  - apply (proj1 (selections_follow_board [] initial [] eq_refl)).
  - apply (proj2 (selections_follow_board Scenario.start_j42
                    Scenario.running Scenario.running_asked
                    running_reached)).
    left. reflexivity.
Defined.

(** * More of [src/App.tsx]: the handlers and the pollers *)

Lemma take_first f l1 p l2 :
  existsb f l1 = false -> f p = true ->
  take f (l1 ++ p :: l2)%list = Some (p, (l1 ++ l2)%list).
Proof.
  intros E P. induction l1 as [|x l1 IH]; cbn in *.
  - now rewrite P.
  - apply orb_false_iff in E as [Ex E]. now rewrite Ex, (IH E).
Qed.

Lemma same_jobId_started prev j :
  truthy_opt prev = false -> truthy j = true ->
  same_jobId prev (Some j) = false.
Proof.
  destruct prev as [x|]; cbn; [|reflexivity]. intros X J.
  apply truthy_false in X. subst x.
  unfold truthy in J. apply negb_true_iff in J.
  now rewrite String.eqb_sym.
Qed.

(** The render after a job id has appeared: the three poller effects run,
    in the order of the source, each loading at once and arming its
    interval. *)
Lemma commit_job_started prev w j :
  selectedBoardId (ui w) = selectedBoardId prev ->
  countdown (ui w) = countdown prev ->
  truthy_opt (jobId prev) = false ->
  jobId (ui w) = Some j -> truthy j = true ->
  commit prev w
  = (with_savedFramesInterval true
       (suspend PSavedFrames
          (with_profilingInterval true
             (suspend PProfiling
                (with_eventsInterval true (suspend PEvents w))))),
     [Call (getRecentEvents 20); Call (getProfiling j);
      Call fetchSavedFrames]).
Proof.
  intros B C P J T. unfold commit.
  rewrite (effect_catalog_same_board prev w B).
  unfold effect_events, effect_profiling, effect_savedFrames,
    effect_countdown, loadEvents, loadProfiling, loadSavedFrames.
  do 6 (cbn -[Z.eqb Z.leb];
        rewrite ?J, ?P, ?T, ?(same_jobId_started _ _ P T)).
  cbn -[Z.eqb Z.leb]. now rewrite C, Z.eqb_refl.
Qed.

(** X12: in every state the mounted component reaches, when [startJob]
    resolves with a job id that is not empty, the step that handles it
    records the job id, clears [busy], arms the 8000 ms timer, and the
    render then makes the three pollers load at once (events with limit 20,
    profiling for the new job, saved frames, in that order) and arms their
    intervals.  The stream address is not touched by that step: it is left
    to the timer, and if no older warm-up timer is pending, the timer
    assigns it. *)
Theorem successful_start_arms_pollers inputs w a res w' a' :
  run initial inputs = Some (w, a) ->
  step w (StartSettled (Resolved res)) = Some (w', a') ->
  truthy (job_id res) = true ->
  jobId (ui w') = Some (job_id res)
  /\ busy (ui w') = false
  /\ streamUrl (ui w') = streamUrl (ui w)
  /\ a' = [SetTimeout 8000; Call (getRecentEvents 20);
           Call (getProfiling (job_id res)); Call fetchSavedFrames]
  /\ eventsInterval w' = true /\ profilingInterval w' = true
  /\ savedFramesInterval w' = true
  /\ waiting (PWarmup (stream_url res)) w' = true
  /\ (existsb is_warmup (suspended w) = false ->
      exists w'',
        step w' WarmupElapsed = Some (w'', [])
        /\ streamUrl (ui w'') = stream_url res
        /\ jobId (ui w'') = Some (job_id res)).
Proof.
  intros R S T.
  destruct (reached_coherent _ _ _ R) as (_ & _ & L & _).
  unfold step, handle, resume in S.
  destruct (take (Pending_eqb PStart) (suspended w)) as [[q r]|] eqn:Tk;
    [|discriminate].
  destruct (take_control _ _ _ _ Tk eq_refl (lifecycle_ok_length _ _ L))
    as [E _].
  unfold in_flight in L. rewrite E in L. cbn in L.
  apply andb_prop in L as [_ J]. apply negb_true_iff in J.
  unfold onStart_settled in S.
  rewrite (commit_job_started _ _ (job_id res)) in S
    by (try reflexivity; assumption).
  inversion S; subst; clear S. cbn.
  do 7 (split; [reflexivity|]). split.
  - unfold waiting. cbn. rewrite !existsb_app. cbn.
    rewrite String.eqb_refl. now rewrite !orb_true_r.
  - intros NW.
    pose proof (take_existsb _ is_warmup _ _ _ Tk NW) as NR.
    unfold step, handle. cbn [suspended with_savedFramesInterval suspend
      with_profilingInterval with_eventsInterval upd with_ui
      with_suspended].
    rewrite <- !app_assoc. cbn [app].
    rewrite (take_first is_warmup r (PWarmup (stream_url res)) _ NR eq_refl).
    unfold quiet, warmup_elapsed.
    rewrite commit_same_deps by reflexivity.
    eexists. split; [reflexivity|]. split; reflexivity.
Qed.

Lemma successful_start_arms_pollers_witness :
  jobId (ui Scenario.running) = Some "j42"
  /\ busy (ui Scenario.running) = false
  /\ streamUrl (ui Scenario.running) = streamUrl (ui Scenario.starting)
  /\ [SetTimeout 8000; Call (getRecentEvents 20);
      Call (getProfiling "j42"); Call fetchSavedFrames]
     = [SetTimeout 8000; Call (getRecentEvents 20);
        Call (getProfiling "j42"); Call fetchSavedFrames]
  /\ eventsInterval Scenario.running = true
  /\ profilingInterval Scenario.running = true
  /\ savedFramesInterval Scenario.running = true
  /\ waiting (PWarmup "http://192.168.1.56:8000/stream/j42")
       Scenario.running = true
  /\ (existsb is_warmup (suspended Scenario.starting) = false ->
      exists w'',
        step Scenario.running WarmupElapsed = Some (w'', [])
        /\ streamUrl (ui w'') = "http://192.168.1.56:8000/stream/j42"
        /\ jobId (ui w'') = Some "j42").
Proof.
  apply (successful_start_arms_pollers Scenario.start_requested
           Scenario.starting Scenario.starting_asked Scenario.res_j42
           Scenario.running
           [SetTimeout 8000; Call (getRecentEvents 20);
            Call (getProfiling "j42"); Call fetchSavedFrames]).
  - vm_compute. reflexivity.
  - vm_compute. reflexivity.
  - reflexivity.
Defined.

(** X13: in every state the mounted component reaches, when [startJob]
    rejects, the step that handles it leaves no job id and no stream
    address, puts the message in the error text and in one alert, clears
    [busy] and asks for nothing else; the pollers stay off.  The countdown
    that [onStart] set is not reset: it keeps its value and its interval. *)
Theorem failed_start_leaves_no_job inputs w a msg w' a' :
  run initial inputs = Some (w, a) ->
  step w (StartSettled (Rejected msg)) = Some (w', a') ->
  jobId (ui w') = None
  /\ streamUrl (ui w') = EmptyString
  /\ streamError (ui w') = Some ("Failed to start: " ++ msg)
  /\ busy (ui w') = false
  /\ a' = [Alert ("Start failed: " ++ msg)]
  /\ pollers_off w'
  /\ countdown (ui w') = countdown (ui w)
  /\ countdownInterval w' = countdownInterval w.
Proof.
  intros R S.
  pose proof (reached_coherent _ _ _ R) as K.
  pose proof (step_coherent _ _ _ _ K S) as ((Te & Tp & Ts & Tc) & _).
  destruct K as ((_ & _ & _ & Tc0) & _).
  apply step_inv in S as (w1 & a1 & H & E & ->).
  assert (H1 : jobId (ui w1) = None /\ streamUrl (ui w1) = EmptyString
               /\ streamError (ui w1) = Some ("Failed to start: " ++ msg)
               /\ busy (ui w1) = false
               /\ countdown (ui w1) = countdown (ui w)
               /\ selectedBoardId (ui w1) = selectedBoardId (ui w)
               /\ a1 = [Alert ("Start failed: " ++ msg)]).
  { unfold handle, resume in H.
    destruct (take (Pending_eqb PStart) (suspended w)) as [[q r]|];
      [|discriminate].
    inversion H; subst. cbn. repeat split. }
  destruct H1 as (J1 & U1 & E1 & B1 & C1 & S1 & ->).
  assert (Jf : job_active (ui w1) = false)
    by (unfold job_active; now rewrite J1).
  destruct (commit_pollers_off (ui w) w1 Jf) as (_ & A).
  destruct (commit_like (ui w) w1) as (F & _ & _).
  rewrite <- E in *.
  destruct F as (_ & _ & _ & Fj & Fu & Fb & _ & _ & Fe & Fc & _).
  assert (J' : job_active (ui w') = false)
    by (unfold job_active; now rewrite Fj, J1).
  rewrite Fj, Fu, Fb, Fe, Fc, (A S1), Tc, Tc0, Fc, C1.
  do 5 (split; [assumption || reflexivity|]).
  split; [|split; reflexivity].
  unfold pollers_off. now rewrite Te, Tp, Ts, J'.
Qed.

Lemma failed_start_leaves_no_job_witness :
  exists w',
    step Scenario.starting (StartSettled (Rejected "Failed to fetch"))
    = Some (w', [Alert ("Start failed: " ++ "Failed to fetch")])
    /\ jobId (ui w') = None
    /\ streamUrl (ui w') = EmptyString
    /\ streamError (ui w') = Some ("Failed to start: " ++ "Failed to fetch")
    /\ busy (ui w') = false
    /\ [Alert ("Start failed: " ++ "Failed to fetch")]
       = [Alert ("Start failed: " ++ "Failed to fetch")]
    /\ pollers_off w'
    /\ countdown (ui w') = countdown (ui Scenario.starting)
    /\ countdownInterval w' = countdownInterval Scenario.starting.
Proof.
  eexists. split; [vm_compute; reflexivity|].
  apply (failed_start_leaves_no_job Scenario.start_requested
           Scenario.starting Scenario.starting_asked "Failed to fetch").
  - vm_compute. reflexivity.
  - vm_compute. reflexivity.
Defined.

Lemma setIsPaused_after_busy (s : State) (v : bool) :
  busy s = false ->
  setBusy false (setIsPaused v (setBusy true s)) = setIsPaused v s.
Proof. destruct s; cbn; intros ->; reflexivity. Qed.

(** In a coherent state where Pause/Resume is allowed, a board is selected
    and [busy] is down. *)
Lemma selections_board_of_job w :
  coherent w -> canPause (ui w) = true ->
  truthy (selectedBoardId (ui w)) = true /\ busy (ui w) = false.
Proof.
  intros (_ & _ & _ & _ & S & _) C. unfold canPause in C.
  apply andb_prop in C as [J B]. apply negb_true_iff in B.
  split; [|exact B].
  unfold selection_ok in S. apply andb_prop in S as [_ S].
  unfold job_active in S. rewrite J in S. cbn in S.
  apply andb_prop in S as [S _]. now apply andb_prop in S as [S _].
Qed.

(** X14: in every state the mounted component reaches, a click on
    Pause/Resume that is allowed calls [resumeVideo] when the stream is
    paused and [pauseVideo] when it is not, for the selected board, and
    raises [busy].  When that call resolves, the only change to the state
    is that the pause flag is flipped; when it rejects, the state is as
    before the click (the flag is not flipped) and the message is
    alerted. *)
Theorem pause_flips_flag_on_success inputs w a :
  run initial inputs = Some (w, a) ->
  canPause (ui w) = true ->
  exists w1,
    step w ClickPause
    = Some (w1, [Call ((if isPaused (ui w) then resumeVideo else pauseVideo)
                         (selectedBoardId (ui w)))])
    /\ busy (ui w1) = true
    /\ (exists w2,
          step w1 (if isPaused (ui w) then ResumeSettled (Resolved tt)
                   else PauseSettled (Resolved tt)) = Some (w2, [])
          /\ ui w2 = setIsPaused (negb (isPaused (ui w))) (ui w))
    /\ (forall msg, exists w2,
          step w1 (if isPaused (ui w) then ResumeSettled (Rejected msg)
                   else PauseSettled (Rejected msg))
          = Some (w2, [Alert ("Pause/resume failed: " ++ msg)])
          /\ ui w2 = ui w).
Proof.
  intros R C.
  destruct (selections_board_of_job w) as [Hb B0].
  { exact (reached_coherent _ _ _ R). }
  { exact C. }
  pose proof C as C'. unfold canPause in C'. apply andb_prop in C' as [J _].
  destruct (isPaused (ui w)) eqn:P.
  - set (w1 := suspend PResume (upd (setBusy true) w)).
    assert (S1 : step w ClickPause
                 = Some (w1, [Call (resumeVideo (selectedBoardId (ui w)))])).
    { unfold step, handle, onPause. rewrite C, J, Hb, P. cbn [negb orb].
      now rewrite commit_same_deps by reflexivity. }
    destruct (take_enabled (Pending_eqb PResume) (suspended w1))
      as (q & r & T); [apply (waiting_suspend PResume)|].
    exists w1. split; [exact S1|]. split; [reflexivity|]. split.
    + eexists. unfold step, handle, resume. rewrite T.
      unfold onPause_settled. rewrite commit_same_deps by reflexivity.
      split; [reflexivity|]. subst w1. cbn. rewrite <- P.
      rewrite P. now apply setIsPaused_after_busy.
    + intros msg. eexists. unfold step, handle, resume. rewrite T.
      unfold onPause_settled. rewrite commit_same_deps by reflexivity.
      split; [reflexivity|]. subst w1. cbn. now apply setBusy_restore.
  - set (w1 := suspend PPause (upd (setBusy true) w)).
    assert (S1 : step w ClickPause
                 = Some (w1, [Call (pauseVideo (selectedBoardId (ui w)))])).
    { unfold step, handle, onPause. rewrite C, J, Hb, P. cbn [negb orb].
      now rewrite commit_same_deps by reflexivity. }
    destruct (take_enabled (Pending_eqb PPause) (suspended w1))
      as (q & r & T); [apply (waiting_suspend PPause)|].
    exists w1. split; [exact S1|]. split; [reflexivity|]. split.
    + eexists. unfold step, handle, resume. rewrite T.
      unfold onPause_settled. rewrite commit_same_deps by reflexivity.
      split; [reflexivity|]. subst w1. cbn.
      now apply setIsPaused_after_busy.
    + intros msg. eexists. unfold step, handle, resume. rewrite T.
      unfold onPause_settled. rewrite commit_same_deps by reflexivity.
      split; [reflexivity|]. subst w1. cbn. now apply setBusy_restore.
Qed.

Lemma pause_flips_flag_on_success_witness :
  exists w1,
    step Scenario.running ClickPause = Some (w1, [Call (pauseVideo "b1")])
    /\ busy (ui w1) = true
    /\ (exists w2,
          step w1 (PauseSettled (Resolved tt)) = Some (w2, [])
          /\ ui w2 = setIsPaused true (ui Scenario.running))
    /\ (forall msg, exists w2,
          step w1 (PauseSettled (Rejected msg))
          = Some (w2, [Alert ("Pause/resume failed: " ++ msg)])
          /\ ui w2 = ui Scenario.running).
Proof.
  apply (pause_flips_flag_on_success Scenario.start_j42 Scenario.running
           Scenario.running_asked).
  - vm_compute. reflexivity.
  - reflexivity.
Defined.

(** X15: the settlement of a poller request writes its own slice and
    nothing else.  A resolved events round replaces the events list, a
    profiling round that returned data replaces the snapshot, a saved-frames
    round with an [ok] response replaces the frames; a round that rejected,
    returned no data or got a response that was not [ok] leaves the whole
    state as it was.  In every case no timer changes and nothing is asked
    for: a failed round stops no poller and is not retried before the next
    tick. *)
Theorem poller_settlement_writes_own_slice w :
  (forall o w' a,
     step w (EventsSettled o) = Some (w', a) ->
     ui w' = match o with
             | Resolved ev => setEvents ev (ui w)
             | Rejected _ => ui w
             end
     /\ a = [] /\ same_timers w w')
  /\ (forall o w' a,
        step w (ProfilingSettled o) = Some (w', a) ->
        ui w' = match o with
                | Resolved (Some data) => setProfiling (Some data) (ui w)
                | _ => ui w
                end
        /\ a = [] /\ same_timers w w')
  /\ (forall o w' a,
        step w (SavedFramesSettled o) = Some (w', a) ->
        ui w' = match o with
                | Resolved (Some frames) => setSavedFrames frames (ui w)
                | _ => ui w
                end
        /\ a = [] /\ same_timers w w').
Proof.
  split; [|split]; intros o w' a S; unfold step, handle, resume in S;
    match type of S with
    | context [take ?f ?l] => destruct (take f l) as [[q r]|]; [|discriminate]
    end;
    unfold quiet, loadEvents_settled, loadProfiling_settled,
      loadSavedFrames_settled in S.
  - destruct o; rewrite commit_same_deps in S by reflexivity;
      inversion S; subst; repeat split.
  - destruct o as [[d|]|e]; rewrite commit_same_deps in S by reflexivity;
      inversion S; subst; repeat split.
  - destruct o as [[f|]|e]; rewrite commit_same_deps in S by reflexivity;
      inversion S; subst; repeat split.
Qed.

Lemma poller_settlement_writes_own_slice_witness :
  exists w',
    step Scenario.running (EventsSettled (Rejected "Failed to fetch events"))
    = Some (w', [])
    /\ ui w' = ui Scenario.running
    /\ @nil Action = [] /\ same_timers Scenario.running w'.
Proof.
  eexists. split; [vm_compute; reflexivity|].
  apply (proj1 (poller_settlement_writes_own_slice Scenario.running)
           (Rejected "Failed to fetch events")).
  vm_compute. reflexivity.
Defined.



(** X18: the saved-frames list is replaced only by an [ok] response whose
    body parses, and then by the frames of that body.  A response that is
    not [ok], a body that does not parse and a network failure all leave
    the whole state as it was.  Either way nothing is asked for and no
    timer changes. *)
Theorem saved_frames_need_ok_response w f w' a :
  step w (SavedFramesSettled (savedFrames_outcome f)) = Some (w', a) ->
  a = [] /\ same_timers w w'
  /\ ((exists r frames,
         f = Api.Responded r /\ Api.ok r = true
         /\ Api.json r = Some frames
         /\ ui w' = setSavedFrames frames (ui w))
      \/ ((forall r frames,
             f = Api.Responded r -> Api.ok r = true ->
             Api.json r <> Some frames)
          /\ ui w' = ui w)).
Proof.
  intros S.
  assert (K : a = [] /\ same_timers w w'
              /\ ui w' = match savedFrames_outcome f with
                         | Resolved (Some frames) =>
                             setSavedFrames frames (ui w)
                         | _ => ui w
                         end).
  { unfold step, handle, resume in S.
    destruct (take (Pending_eqb PSavedFrames) (suspended w)) as [[q l]|];
      [|discriminate].
    unfold quiet, loadSavedFrames_settled in S.
    destruct (savedFrames_outcome f) as [[fr|]|e];
      rewrite commit_same_deps in S by reflexivity;
      inversion S; subst; repeat split. }
  destruct K as (A & T & U).
  split; [exact A|]. split; [exact T|].
  destruct f as [m|r]; cbn in U.
  - right. split; [discriminate|exact U].
  - destruct (Api.ok r) eqn:O; cbn in U.
    + destruct (Api.json r) as [frames|] eqn:J; cbn in U.
      * left. now exists r, frames.
      * right. split; [|exact U].
        intros r' fr E _. inversion E; subst. congruence.
    + right. split; [|exact U].
      intros r' fr E O'. inversion E; subst. congruence.
Qed.

Lemma saved_frames_need_ok_response_witness :
  exists w',
    step Scenario.running
      (SavedFramesSettled (savedFrames_outcome Scenario.frames_unavailable))
    = Some (w', [])
    /\ @nil Action = [] /\ same_timers Scenario.running w'
    /\ ((exists r frames,
           Scenario.frames_unavailable = Api.Responded r
           /\ Api.ok r = true /\ Api.json r = Some frames
           /\ ui w' = setSavedFrames frames (ui Scenario.running))
        \/ ((forall r frames,
               Scenario.frames_unavailable = Api.Responded r ->
               Api.ok r = true -> Api.json r <> Some frames)
            /\ ui w' = ui Scenario.running)).
Proof.
  eexists. split; [vm_compute; reflexivity|].
  apply (saved_frames_need_ok_response Scenario.running
           Scenario.frames_unavailable).
  vm_compute. reflexivity.
Defined.

Lemma take_keeps_waiting f g l q r :
  take f l = Some (q, r) -> g q = false -> existsb g r = existsb g l.
Proof.
  intros T G. apply take_split in T as (_ & l1 & l2 & -> & ->).
  rewrite !existsb_app. cbn. now rewrite G.
Qed.

Lemma handle_loading i w w1 a1 :
  handle i w = Some (w1, a1) -> loading_has_fetch w -> loading_has_fetch w1.
Proof.
  unfold loading_has_fetch, waiting. intros H L.
  destruct i; handle_cases H; cbn in *; rewrite ?existsb_app; cbn;
    rewrite ?orb_false_r; try assumption; try discriminate;
    try match goal with
        | T : take (Pending_eqb ?p) _ = Some (?q, _) |- _ =>
            let E := fresh "E" in
            pose proof T as E; apply take_split in E; destruct E as [E _];
            apply Pending_eqb_eq in E; subst q;
            rewrite (take_keeps_waiting _ (Pending_eqb PCatalog) _ _ _ T
                       eq_refl); assumption
        | T : take _ _ = Some (_, _) |- _ =>
            rewrite (take_keeps_waiting _ (Pending_eqb PCatalog) _ _ _ T
                       eq_refl); assumption
        end.
Qed.

Lemma commit_loading_has_fetch prev w :
  loading_has_fetch w -> loading_has_fetch (fst (commit prev w)).
Proof.
  apply (commit_preserves loading_has_fetch); clear prev w;
    intros prev w; unfold loading_has_fetch, waiting; intros L;
    [ unfold effect_catalog
    | unfold effect_events, loadEvents
    | unfold effect_profiling, loadProfiling
    | unfold effect_savedFrames, loadSavedFrames
    | unfold effect_countdown ];
    effect_cases; cbn; rewrite ?existsb_app; cbn;
    rewrite ?orb_true_r, ?orb_false_r; auto.
Qed.

Lemma run_loading_has_fetch w inputs w' a :
  loading_has_fetch w -> run w inputs = Some (w', a) ->
  loading_has_fetch w'.
Proof.
  revert w a. induction inputs as [|i inputs IH]; cbn; intros w a L R.
  - now inversion R; subst.
  - destruct (step w i) as [[w1 a1]|] eqn:S; [|discriminate].
    destruct (run w1 inputs) as [[w2 a2]|] eqn:R2; [|discriminate].
    inversion R; subst. eapply IH; [|exact R2].
    apply step_inv in S as (w0 & a0 & H & -> & _).
    apply commit_loading_has_fetch. eapply handle_loading; eauto.
Qed.

(** X19: in every state the mounted component reaches, while
    [loadingModels] is up a cameras/models fetch is in flight; however it
    settles, the settlement can be delivered and lowers the flag, so the
    model selector is not left locked by it. *)
Theorem loading_flag_is_lowered inputs w a :
  run initial inputs = Some (w, a) ->
  loadingModels (ui w) = true ->
  waiting PCatalog w = true
  /\ forall o, exists w' a',
       step w (CatalogSettled o) = Some (w', a')
       /\ loadingModels (ui w') = false.
Proof.
  intros R L.
  assert (W : waiting PCatalog w = true).
  { apply (run_loading_has_fetch initial inputs w a); auto.
    intros H. discriminate H. }
  split; [exact W|]. intros o.
  destruct (take_enabled _ _ W) as (q & r & T).
  unfold step, handle, resume. rewrite T. unfold quiet.
  rewrite commit_same_deps by (destruct o as [[c m]|e]; reflexivity).
  do 2 eexists. split; [reflexivity|].
  destruct o as [[c m]|e]; reflexivity.
Qed.

Lemma loading_flag_is_lowered_witness :
  waiting PCatalog Scenario.board_changed = true
  /\ forall o, exists w' a',
       step Scenario.board_changed (CatalogSettled o) = Some (w', a')
       /\ loadingModels (ui w') = false.
Proof.
  apply (loading_flag_is_lowered (Scenario.setup ++ [SelectBoard "b2"])%list
           Scenario.board_changed
           [Call (getCameras "b1"); Call (getModels "b1");
            Call (getCameras "b2"); Call (getModels "b2")]).
  - vm_compute. reflexivity.
  - reflexivity.
Defined.

Lemma effect_calls_not_job_control (a : list Action) :
  forallb is_effect_call a = true -> existsb is_job_control_call a = false.
Proof.
  induction a as [|x a IH]; cbn; [easy|].
  intros H. apply andb_prop in H as [Hx Ha]. rewrite (IH Ha).
  destruct x as [[]| |]; cbn in *; try discriminate; reflexivity.
Qed.

(** X20: whatever the state, a step calls [stopJob], [pauseVideo] or
    [resumeVideo] only on a click while a job is active and [busy] is
    down; it makes that one call, for the current job id or the selected
    board, and leaves [busy] up. *)
Theorem job_controls_need_active_job w i w' a :
  step w i = Some (w', a) ->
  existsb is_job_control_call a = true ->
  job_active (ui w) = true /\ busy (ui w) = false /\ busy (ui w') = true
  /\ ((i = ClickStop
       /\ exists j, jobId (ui w) = Some j /\ a = [Call (stopJob j)])
      \/ (i = ClickPause
          /\ a = [Call ((if isPaused (ui w) then resumeVideo
                         else pauseVideo) (selectedBoardId (ui w)))])).
Proof.
  intros S E. apply step_inv in S as (w1 & a1 & H & -> & ->).
  destruct (commit_like (ui w) w1) as (F & _ & C).
  rewrite existsb_app, (effect_calls_not_job_control _ C), orb_false_r in E.
  destruct F as (_ & _ & _ & _ & _ & -> & _).
  assert (K : job_active (ui w) = true /\ busy (ui w) = false
              /\ busy (ui w1) = true
              /\ jobId (ui w1) = jobId (ui w)
              /\ selectedBoardId (ui w1) = selectedBoardId (ui w)
              /\ countdown (ui w1) = countdown (ui w)
              /\ ((i = ClickStop
                   /\ exists j, jobId (ui w) = Some j
                                /\ a1 = [Call (stopJob j)])
                  \/ (i = ClickPause
                      /\ a1 = [Call ((if isPaused (ui w) then resumeVideo
                                      else pauseVideo)
                                       (selectedBoardId (ui w)))]))).
  { destruct i; handle_cases H; cbn in E; try discriminate E;
      unfold canStop, canPause, job_active in *;
      repeat match goal with
             | G : _ && _ = true |- _ => apply andb_prop in G as [? ?]
             | G : negb _ = true |- _ => apply negb_true_iff in G
             end;
      cbn; repeat split; eauto;
      match goal with
      | P : isPaused _ = _ |- _ =>
          right; split; [reflexivity|]; now rewrite P
      end. }
  destruct K as (J & B & B1 & Ej & Eb & Ec & K).
  rewrite (commit_same_deps (ui w) w1 Eb Ej Ec), app_nil_r. auto.
Qed.

Lemma job_controls_need_active_job_witness :
  job_active (ui Scenario.running) = true
  /\ busy (ui Scenario.running) = false
  /\ busy (ui Scenario.stopping) = true
  /\ ((ClickStop = ClickStop
       /\ exists j, jobId (ui Scenario.running) = Some j
                    /\ [Call (stopJob "j42")] = [Call (stopJob j)])
      \/ (ClickStop = ClickPause
          /\ [Call (stopJob "j42")]
             = [Call ((if isPaused (ui Scenario.running) then resumeVideo
                       else pauseVideo)
                        (selectedBoardId (ui Scenario.running)))])).
Proof.
  apply (job_controls_need_active_job Scenario.running ClickStop
           Scenario.stopping [Call (stopJob "j42")]).
  - vm_compute. reflexivity.
  - reflexivity.
Defined.
